(** * Resume-Scorer: the scoring pipeline of [services/atsScorer.js] and
      [services/keywordExtractor.js], embedded in Rocq.

    Conventions of the embedding.

    - A JavaScript string is a sequence of UTF-16 code units: [jsstring] is
      [list N].  String literals of the source that are plain ASCII are written
      with [str "..."]; the few non-ASCII characters of the source are given by
      their code unit.
    - A JavaScript number is modelled by an exact rational ([Q]) when it is a
      score and by an integer ([Z]) when it is a count.  Every score of the
      program is a ratio of two small integers times a decimal constant, so the
      rounding error of IEEE doubles is left out; [parseInt] is exact (it is in
      JavaScript below 2^53).  [Q] has neither NaN nor Infinity: every
      quotient of the program is formed under the guard or with the constant
      divisor it has in the source.
    - A regular expression literal is a value of [regex]; [run] is the
      backtracking matcher of ECMAScript (greedy quantifiers, ordered
      alternation, non-unicode mode), and [matches], [test], [split] follow
      [String.prototype.match] with the [g] flag, [RegExp.prototype.test] and
      [String.prototype.split].
    - [String.prototype.toLowerCase] depends on the Unicode tables of the
      engine: it is a parameter ([CaseMap]); [asciiCaseMap] is its restriction
      to Basic Latin, used to evaluate the program on ASCII texts.
    - The packages [natural] and [compromise] are not part of the repository:
      their calls are parameters ([NLP]) that may return or throw. *)

From Stdlib Require Import List Bool Arith ZArith NArith QArith Qround Lia Lqa.
From Stdlib Require Import Ascii String Permutation DecimalString Sorted.
Import ListNotations.

Set Implicit Arguments.
Close Scope Q_scope.
Abbreviation length := List.length.

(* ================================================================== *)
(** ** Strings *)

Module JS.

Definition char := N.
Definition jsstring := list char.

#[local] Open Scope N_scope.

Definition str (s : string) : jsstring :=
  map (fun a => N_of_ascii a) (list_ascii_of_string s).

Definition char_eqb (a b : char) : bool := N.eqb a b.

Fixpoint string_eqb (a b : jsstring) : bool :=
  match a, b with
  | [], [] => true
  | x :: a', y :: b' => char_eqb x y && string_eqb a' b'
  | _, _ => false
  end.

Definition inRange (lo hi : N) (c : char) : bool :=
  (N.leb lo c && N.leb c hi)%bool.

Definition oneOf (cs : list N) (c : char) : bool :=
  existsb (N.eqb c) cs.

(** [\d], [\w] and [\s] of ECMAScript (non-unicode mode). *)
Definition isDigit (c : char) : bool := inRange 48 57 c.

Definition isUpperAZ (c : char) : bool := inRange 65 90 c.
Definition isLowerAZ (c : char) : bool := inRange 97 122 c.

Definition isWord (c : char) : bool :=
  (isLowerAZ c || isUpperAZ c || isDigit c || N.eqb c 95)%bool.

(** WhiteSpace and LineTerminator code points: TAB, LF, VT, FF, CR, SP, NBSP,
    U+1680, U+2000..U+200A, U+2028, U+2029, U+202F, U+205F, U+3000, U+FEFF. *)
Definition isSpace (c : char) : bool :=
  (inRange 9 13 c || oneOf [32; 160; 5760; 8232; 8233; 8239; 8287; 12288; 65279] c
   || inRange 8192 8202 c)%bool.

(** Canonicalize of the [i] flag, on the Basic Latin letters: a code unit
    above 127 is never folded onto an ASCII one. *)
Definition canon (c : char) : char :=
  if isLowerAZ c then (c - 32)%N else c.

(** [String.prototype.includes]. *)
Fixpoint startsWith (s p : jsstring) : bool :=
  match p, s with
  | [], _ => true
  | _ :: _, [] => false
  | y :: p', x :: s' => char_eqb x y && startsWith s' p'
  end.

Fixpoint includes (s p : jsstring) : bool :=
  startsWith s p ||
  match s with
  | [] => false
  | _ :: s' => includes s' p
  end.

(** [Array.prototype.includes] on strings. *)
Definition mem (x : jsstring) (l : list jsstring) : bool :=
  existsb (string_eqb x) l.

(** [String.prototype.trim]. *)
Fixpoint trimStart (s : jsstring) : jsstring :=
  match s with
  | c :: s' => if isSpace c then trimStart s' else s
  | [] => []
  end.

Definition trim (s : jsstring) : jsstring :=
  rev (trimStart (rev (trimStart s))).

#[local] Close Scope N_scope.

(** [Array.prototype.slice(0, n)]. *)
Definition slice0 {A} (n : nat) (l : list A) : list A := firstn n l.

(** [new Set(l)] followed by iteration: insertion order, first occurrence
    kept. *)
Fixpoint dedupInto (seen l : list jsstring) : list jsstring :=
  match l with
  | [] => seen
  | x :: l' => if mem x seen then dedupInto seen l' else dedupInto (seen ++ [x]) l'
  end.

Definition newSet (l : list jsstring) : list jsstring := dedupInto [] l.

(** [Array.prototype.sort(cmp)], which is stable; [after a b] stands for
    [cmp(a, b) > 0]. *)
Fixpoint insertSorted {A} (after : A -> A -> bool) (x : A) (l : list A) : list A :=
  match l with
  | [] => [x]
  | y :: l' => if after x y then y :: insertSorted after x l' else x :: l
  end.

Definition stableSort {A} (after : A -> A -> bool) (l : list A) : list A :=
  fold_right (insertSorted after) [] l.

(** [parseInt] on a string of decimal digits. *)
Definition parseInt (s : jsstring) : Z :=
  fold_left (fun acc c => (10 * acc + (Z.of_N c - 48))%Z) s 0%Z.

(** [Math.round], [Math.ceil], [Math.min], [Math.max]. *)
Definition round (x : Q) : Z := Qfloor (x + (1 # 2))%Q.
Definition ceil (x : Q) : Z := Qceiling x.
Definition min (x y : Q) : Q := if Qle_bool x y then x else y.
Definition max (x y : Q) : Q := if Qle_bool x y then y else x.

End JS.
Import JS.

(** The case conversion of the engine. *)
Class CaseMap := toLowerCase : jsstring -> jsstring.

Definition asciiLower (c : char) : char :=
  if isUpperAZ c then (c + 32)%N else c.

Definition asciiCaseMap : CaseMap := map asciiLower.

(* ================================================================== *)
(** ** Regular expressions *)

Module Regex.

Inductive regex : Type :=
| Eps                          (* the empty pattern *)
| Cls (p : char -> bool)       (* one code unit: literal, class or escape *)
| Cat (r1 r2 : regex)
| Alt (r1 r2 : regex)          (* r1|r2, r1 tried first *)
| Star (r : regex)             (* r*, greedy *)
| Bound                        (* \b *)
| Group (r : regex).           (* ( r ), capturing *)

Definition Plus (r : regex) : regex := Cat r (Star r).
Definition Opt (r : regex) : regex := Alt r Eps.

(** A literal character, with and without the [i] flag. *)
Definition chr (c : N) : regex := Cls (char_eqb c).
Definition chri (c : N) : regex := Cls (fun x => char_eqb (canon x) (canon c)).

Fixpoint seq (l : list regex) : regex :=
  match l with
  | [] => Eps
  | [r] => r
  | r :: l' => Cat r (seq l')
  end.

Fixpoint alts (l : list regex) : regex :=
  match l with
  | [] => Cls (fun _ => false)
  | [r] => r
  | r :: l' => Alt r (alts l')
  end.

Definition lit (s : string) : regex := seq (map chr (str s)).
Definition liti (s : string) : regex := seq (map chri (str s)).

(** A position in the subject: the code unit before it, and what follows. *)
Record cursor := Cursor { before : option char; rest : jsstring }.

Definition atStart (s : jsstring) : cursor := Cursor None s.

Definition wordBefore (p : cursor) : bool :=
  match before p with Some c => isWord c | None => false end.
Definition wordAfter (p : cursor) : bool :=
  match rest p with c :: _ => isWord c | [] => false end.
Definition atBoundary (p : cursor) : bool := xorb (wordBefore p) (wordAfter p).

(** The text between two positions of the same subject. *)
Definition between (p q : cursor) : jsstring :=
  firstn (length (rest p) - length (rest q)) (rest p).

(** The matcher, in continuation-passing style: [run r p caps k] matches [r]
    at [p] and hands the end position and the captures to [k]; [None] makes
    the matcher backtrack.  An iteration of [Star] that consumes nothing is
    rejected, as in ECMAScript. *)
Fixpoint run {A} (r : regex) (p : cursor) (caps : list jsstring)
    (k : cursor -> list jsstring -> option A) : option A :=
  match r with
  | Eps => k p caps
  | Cls f =>
      match rest p with
      | c :: t => if f c then k (Cursor (Some c) t) caps else None
      | [] => None
      end
  | Cat r1 r2 => run r1 p caps (fun p' caps' => run r2 p' caps' k)
  | Alt r1 r2 =>
      match run r1 p caps k with
      | Some a => Some a
      | None => run r2 p caps k
      end
  | Star r1 =>
      (fix loop (n : nat) (p : cursor) (caps : list jsstring) : option A :=
         match n with
         | O => k p caps
         | S n' =>
             match run r1 p caps (fun p' caps' =>
                     if (length (rest p') <? length (rest p))%nat
                     then loop n' p' caps' else None) with
             | Some a => Some a
             | None => k p caps
             end
         end) (length (rest p)) p caps
  | Bound => if atBoundary p then k p caps else None
  | Group r1 => run r1 p caps (fun p' caps' => k p' (caps' ++ [between p p']))
  end.

(** One match at a position: the number of code units consumed and the
    captures. *)
Definition matchAt (r : regex) (p : cursor) : option (nat * list jsstring) :=
  run r p [] (fun p' caps => Some ((length (rest p) - length (rest p'))%nat, caps)).

(** [RegExp.prototype.test] on a fresh regular expression: the leftmost
    position where the pattern matches. *)
Fixpoint searchFrom (r : regex) (prev : option char) (s : jsstring) : bool :=
  match matchAt r (Cursor prev s) with
  | Some _ => true
  | None =>
      match s with
      | [] => false
      | c :: t => searchFrom r (Some c) t
      end
  end.

Definition test (r : regex) (s : jsstring) : bool := searchFrom r None s.

(** [String.prototype.match] and [matchAll] with the [g] flag: the successive
    matches from left to right, each search starting where the previous match
    ended (one code unit further after an empty match).  [skip] counts the
    code units of the last match that are still to be passed. *)
Record found := Found { whole : jsstring; groups : list jsstring }.

Fixpoint scan (r : regex) (prev : option char) (s : jsstring) (skip : nat)
    : list found :=
  match skip, s with
  | S n, c :: t => scan r (Some c) t n
  | S _, [] => []
  | O, _ =>
      match matchAt r (Cursor prev s) with
      | Some (len, caps) =>
          Found (firstn len s) caps ::
          match s with
          | [] => []
          | c :: t => scan r (Some c) t (len - 1)
          end
      | None =>
          match s with
          | [] => []
          | c :: t => scan r (Some c) t 0
          end
      end
  end.

Definition matches (r : regex) (s : jsstring) : list found := scan r None s 0.

(** [(s.match(r) || []).length]. *)
Definition countMatches (r : regex) (s : jsstring) : Z :=
  Z.of_nat (length (matches r s)).

(** [String.prototype.split] with a regular expression without groups.  [cur]
    is the piece being read, in reverse; [fresh] tells that no code unit has
    been read since the last separator, where an empty match does not
    split. *)
Fixpoint splitFrom (r : regex) (prev : option char) (s : jsstring) (skip : nat)
    (cur : jsstring) (fresh : bool) : list jsstring :=
  match s with
  | [] => [rev cur]
  | c :: t =>
      match skip with
      | S n => splitFrom r (Some c) t n [] true
      | O =>
          match matchAt r (Cursor prev s) with
          | Some (S len, _) => rev cur :: splitFrom r (Some c) t len [] true
          | Some (O, _) =>
              if fresh then splitFrom r (Some c) t 0 (c :: cur) false
              else rev cur :: splitFrom r (Some c) t 0 [c] false
          | None => splitFrom r (Some c) t 0 (c :: cur) false
          end
      end
  end.

Definition split (r : regex) (s : jsstring) : list jsstring :=
  match s with
  | [] => match matchAt r (atStart []) with Some _ => [] | None => [[]] end
  | _ => splitFrom r None s 0 [] true
  end.

End Regex.
Import Regex.

(* ================================================================== *)
(** ** services/keywordExtractor.js *)

Inductive category :=
| programming | frameworks | databases | cloud | dataScience | tools
| methodologies.

Definition TECHNICAL_SKILLS : list (category * list string) :=
  [ (programming,
      ["python"; "java"; "javascript"; "typescript"; "c++"; "c#"; "ruby"; "go"; "rust";
       "php"; "swift"; "kotlin"; "scala"; "r"; "matlab"; "sql"; "html"; "css"]);
    (frameworks,
      ["react"; "angular"; "vue"; "node.js"; "express"; "django"; "flask"; "spring";
       "tensorflow"; "pytorch"; "keras"; "scikit-learn"; "pandas"; "numpy"; "react native";
       "flutter"; "next.js"; "fastapi"; "laravel"; "rails"; ".net"; "asp.net"]);
    (databases,
      ["mysql"; "postgresql"; "mongodb"; "redis"; "elasticsearch"; "cassandra";
       "dynamodb"; "oracle"; "sql server"; "sqlite"; "mariadb"; "neo4j"]);
    (cloud,
      ["aws"; "azure"; "gcp"; "google cloud"; "docker"; "kubernetes"; "jenkins";
       "terraform"; "ansible"; "ci/cd"; "devops"; "microservices"; "serverless"]);
    (dataScience,
      ["machine learning"; "deep learning"; "nlp"; "computer vision"; "data mining";
       "statistical analysis"; "data visualization"; "big data"; "spark"; "hadoop";
       "tableau"; "power bi"; "jupyter"; "a/b testing"; "predictive modeling"]);
    (tools,
      ["git"; "github"; "gitlab"; "jira"; "confluence"; "slack"; "vscode";
       "intellij"; "postman"; "swagger"; "figma"; "sketch"; "photoshop"]);
    (methodologies,
      ["agile"; "scrum"; "kanban"; "waterfall"; "tdd"; "bdd"; "ci/cd";
       "pair programming"; "code review"; "version control"]) ]%string.

Definition ACTION_VERBS : list string :=
  ["achieved"; "improved"; "developed"; "created"; "implemented"; "designed";
   "managed"; "led"; "coordinated"; "increased"; "decreased"; "reduced";
   "optimized"; "streamlined"; "automated"; "launched"; "delivered"; "built";
   "established"; "analyzed"; "evaluated"; "researched"; "collaborated";
   "mentored"; "trained"; "presented"; "negotiated"; "resolved"; "executed"]%string.

Definition STOP_WORDS : list jsstring :=
  map str
  ["the"; "a"; "an"; "and"; "or"; "but"; "in"; "on"; "at"; "to"; "for";
   "of"; "with"; "by"; "from"; "as"; "is"; "was"; "are"; "were"; "been";
   "be"; "have"; "has"; "had"; "do"; "does"; "did"; "will"; "would";
   "could"; "should"; "may"; "might"; "must"; "can"; "this"; "that";
   "these"; "those"; "i"; "you"; "he"; "she"; "it"; "we"; "they"]%string.

Record SkillRecord := { skill : jsstring; skillCategory : category; skillCount : Z }.
Record VerbRecord := { verb : jsstring; verbCount : Z }.

(** [new RegExp(`\\b${escaped}\\b`, 'gi')]: the word is escaped, so each of
    its characters stands for itself. *)
Definition wholeWord (w : string) : regex := seq [Bound; liti w; Bound].

Definition space : char := 32%N.

(** The [forEach] over the categories and their skills, pushing a record for
    every skill that occurs. *)
Definition skillsOfCategory (processedText : jsstring) (c : category)
    (names : list string) : list SkillRecord :=
  flat_map (fun name =>
      let n := countMatches (wholeWord name) processedText in
      if (0 <? n)%Z then [ {| skill := str name; skillCategory := c; skillCount := n |} ]
      else []) names.

Definition extractSkills (text : jsstring) : list SkillRecord :=
  let processedText := [space] ++ text ++ [space] in
  let foundSkills :=
    flat_map (fun cn => skillsOfCategory processedText (fst cn) (snd cn)) TECHNICAL_SKILLS in
  stableSort (fun a b => (skillCount a <? skillCount b)%Z) foundSkills.

Definition extractActionVerbs (text : jsstring) : list VerbRecord :=
  let foundVerbs :=
    flat_map (fun v =>
        let n := countMatches (wholeWord v) text in
        if (0 <? n)%Z then [ {| verb := str v; verbCount := n |} ] else []) ACTION_VERBS in
  stableSort (fun a b => (verbCount a <? verbCount b)%Z) foundVerbs.

Module Comparison.
Record t := {
  matched : list jsstring;
  missing : list jsstring;
  matchRate : Q;
  totalJobKeywords : Z;
  matchedCount : Z;
  missingCount : Z }.
End Comparison.

Definition len {A} (l : list A) : Z := Z.of_nat (length l).

Section WithCaseMap.
Context {CM : CaseMap}.

(** The body of the [forEach] of [compareKeywords]: does the job keyword
    count as present in the resume set? *)
Definition keywordFound (resumeSet : list jsstring) (keyword : jsstring) : bool :=
  let lowerKeyword := toLowerCase keyword in
  if mem lowerKeyword resumeSet then true
  else existsb (fun resumeKeyword =>
         includes resumeKeyword lowerKeyword || includes lowerKeyword resumeKeyword)
       resumeSet.

Definition classify (resumeSet : list jsstring)
    (acc : list jsstring * list jsstring) (keyword : jsstring)
    : list jsstring * list jsstring :=
  if keywordFound resumeSet keyword
  then (fst acc ++ [keyword], snd acc)
  else (fst acc, snd acc ++ [keyword]).

Definition compareKeywords (resumeKeywords jobKeywords : list jsstring) : Comparison.t :=
  let resumeSet := newSet (map toLowerCase resumeKeywords) in
  let '(matched, missing) := fold_left (classify resumeSet) jobKeywords ([], []) in
  {| Comparison.matched := matched;
     Comparison.missing := missing;
     Comparison.matchRate :=
       if (0 <? len jobKeywords)%Z
       then ((inject_Z (len matched) / inject_Z (len jobKeywords)) * 100)%Q
       else 0%Q;
     Comparison.totalJobKeywords := len jobKeywords;
     Comparison.matchedCount := len matched;
     Comparison.missingCount := len missing |}.

End WithCaseMap.

(** *** extractYearsOfExperience *)

Definition digits : regex := Plus (Cls isDigit).
Definition ws : regex := Cls isSpace.
Definition plusSign : regex := chr 43.
Definition years_ : regex := Cat (liti "year") (Opt (liti "s")).

(** /(\d+)\+?\s*years?\s+(?:of\s+)?experience/gi *)
Definition yearsPattern1 : regex :=
  seq [Group digits; Opt plusSign; Star ws; years_; Plus ws;
       Opt (Cat (liti "of") (Plus ws)); liti "experience"].

(** /experience[:\s]+(\d+)\+?\s*years?/gi *)
Definition yearsPattern2 : regex :=
  seq [liti "experience"; Plus (Cls (fun c => char_eqb c 58%N || isSpace c));
       Group digits; Opt plusSign; Star ws; years_].

(** /(\d+)\+?\s*years?\s+(?:in|with)/gi *)
Definition yearsPattern3 : regex :=
  seq [Group digits; Opt plusSign; Star ws; years_; Plus ws;
       Alt (liti "in") (liti "with")].

(** [match[1]]. *)
Definition group1 (m : found) : jsstring := hd [] (groups m).

Definition maxOver (pattern : regex) (text : jsstring) (maxYears : Z) : Z :=
  fold_left (fun maxYears m =>
      let years := parseInt (group1 m) in
      if (maxYears <? years)%Z then years else maxYears)
    (matches pattern text) maxYears.

Definition extractYearsOfExperience (text : jsstring) : option Z :=
  let maxYears :=
    fold_left (fun maxYears pattern => maxOver pattern text maxYears)
      [yearsPattern1; yearsPattern2; yearsPattern3] 0%Z in
  if (0 <? maxYears)%Z then Some maxYears else None.

(** *** detectEducation *)

Inductive degree := phd | masters | bachelors | associates.

Module Education.
Record t := {
  highestDegree : option degree;
  degrees : list degree;
  fieldOfStudy : list jsstring }.
End Education.

Definition dotOpt : regex := Opt (chr 46).
Definition apostropheOpt : regex := Opt (chr 39).

(** /ph\.?d|doctorate|doctoral/gi *)
Definition phdPattern : regex :=
  alts [seq [liti "ph"; dotOpt; liti "d"]; liti "doctorate"; liti "doctoral"].

(** /master['']?s|m\.?s\.?|m\.?b\.?a\.?|m\.?eng/gi *)
Definition mastersPattern : regex :=
  alts [seq [liti "master"; apostropheOpt; liti "s"];
        seq [liti "m"; dotOpt; liti "s"; dotOpt];
        seq [liti "m"; dotOpt; liti "b"; dotOpt; liti "a"; dotOpt];
        seq [liti "m"; dotOpt; liti "eng"]].

(** /bachelor['']?s|b\.?s\.?|b\.?a\.?|b\.?eng|undergraduate/gi *)
Definition bachelorsPattern : regex :=
  alts [seq [liti "bachelor"; apostropheOpt; liti "s"];
        seq [liti "b"; dotOpt; liti "s"; dotOpt];
        seq [liti "b"; dotOpt; liti "a"; dotOpt];
        seq [liti "b"; dotOpt; liti "eng"];
        liti "undergraduate"].

(** /associate['']?s|a\.?s\.?|a\.?a\.?/gi *)
Definition associatesPattern : regex :=
  alts [seq [liti "associate"; apostropheOpt; liti "s"];
        seq [liti "a"; dotOpt; liti "s"; dotOpt];
        seq [liti "a"; dotOpt; liti "a"; dotOpt]].

Definition fields : list string :=
  ["computer science"; "data science"; "engineering"; "mathematics";
   "statistics"; "business"; "marketing"; "finance"; "accounting";
   "biology"; "chemistry"; "physics"; "psychology"]%string.

(** [if (!education.highestDegree) education.highestDegree = d;
     education.degrees.push(d)] *)
Definition pushDegree (d : degree) (e : Education.t) : Education.t :=
  {| Education.highestDegree :=
       match Education.highestDegree e with Some h => Some h | None => Some d end;
     Education.degrees := Education.degrees e ++ [d];
     Education.fieldOfStudy := Education.fieldOfStudy e |}.

Definition when {A} (b : bool) (f : A -> A) (a : A) : A := if b then f a else a.

Section Education.
Context {CM : CaseMap}.

Definition detectEducation (text : jsstring) : Education.t :=
  let education :=
    {| Education.highestDegree := None; Education.degrees := [];
       Education.fieldOfStudy := [] |} in
  let lowerText := toLowerCase text in
  let education := when (test phdPattern text) (pushDegree phd) education in
  let education := when (test mastersPattern text) (pushDegree masters) education in
  let education := when (test bachelorsPattern text) (pushDegree bachelors) education in
  let education := when (test associatesPattern text) (pushDegree associates) education in
  {| Education.highestDegree := Education.highestDegree education;
     Education.degrees := Education.degrees education;
     Education.fieldOfStudy :=
       filter (fun field => includes lowerText field) (map str fields) |}.

End Education.

(** *** extractKeywords *)

Inductive entityType := organization | place.
Record Entity := { entityKind : entityType; entityValue : jsstring }.

Record Metadata := {
  totalKeywords : Z;
  skillsCount : Z;
  actionVerbsCount : Z }.

Module KeywordSet.
Record t := {
  keywords : list jsstring;
  skills : list SkillRecord;
  actionVerbs : list VerbRecord;
  phrases : list jsstring;
  entities : list Entity;
  metadata : option Metadata }.
End KeywordSet.

(** A call into a package either returns a value or throws. *)
Inductive outcome (A : Type) := Returns (a : A) | Throws.
Arguments Returns {A} a.
Arguments Throws {A}.

Definition bind {A B} (m : outcome A) (f : A -> outcome B) : outcome B :=
  match m with Returns a => f a | Throws => Throws end.

Notation "x <- m ;; k" := (bind m (fun x => k))
  (at level 61, m at next level, right associativity).

(** The calls into [natural] and [compromise]:
    - [listTerms text]: the [term] of each item of [tfidf.listTerms(0)] after
      [tfidf.addDocument(text)] on a new [TfIdf];
    - [nouns text]: [compromise(text).nouns().out('array')];
    - [organizations text], [places text]: likewise. *)
Class NLP := {
  listTerms : jsstring -> outcome (list jsstring);
  nouns : jsstring -> outcome (list jsstring);
  organizations : jsstring -> outcome (list jsstring);
  places : jsstring -> outcome (list jsstring) }.

Section ExtractKeywords.
Context {CM : CaseMap} {nlp : NLP}.

Definition extractTFIDFKeywords (text : jsstring) : outcome (list jsstring) :=
  terms <- listTerms text ;;
  let keywords :=
    filter (fun term => negb (mem term STOP_WORDS) && (2 <? length term)) terms in
  Returns (slice0 50 keywords).

(** /\b([a-z]+\s+[a-z]+)\b/gi *)
Definition letter : regex := Cls (fun c => isUpperAZ (canon c)).
Definition bigramRegex : regex :=
  seq [Bound; Group (seq [Plus letter; Plus ws; Plus letter]); Bound].

(** [phrase.split(' ')[0]] *)
Fixpoint firstWord (s : jsstring) : jsstring :=
  match s with
  | [] => []
  | c :: s' => if char_eqb c space then [] else c :: firstWord s'
  end.

(** [Set.prototype.add] *)
Definition setAdd (s : list jsstring) (x : jsstring) : list jsstring :=
  if mem x s then s else s ++ [x].

Definition extractPhrases (text : jsstring) : outcome (list jsstring) :=
  ns <- nouns text ;;
  let phrases :=
    fold_left (fun phrases noun =>
        if existsb (char_eqb space) noun && (5 <? length noun)
        then setAdd phrases (toLowerCase noun) else phrases) ns [] in
  let phrases :=
    fold_left (fun phrases m =>
        let phrase := group1 m in
        if negb (mem (firstWord phrase) STOP_WORDS) && (5 <? length phrase)
        then setAdd phrases phrase else phrases)
      (matches bigramRegex (toLowerCase text)) phrases in
  Returns (slice0 30 phrases).

Definition extractEntities (text : jsstring) : outcome (list Entity) :=
  orgs <- organizations text ;;
  ps <- places text ;;
  let keep kind l :=
    map (fun v => {| entityKind := kind; entityValue := v |})
        (filter (fun v => 2 <? length v) l) in
  Returns (slice0 20 (keep organization orgs ++ keep place ps)).

Definition emptyKeywordSet : KeywordSet.t :=
  {| KeywordSet.keywords := []; KeywordSet.skills := [];
     KeywordSet.actionVerbs := []; KeywordSet.phrases := [];
     KeywordSet.entities := []; KeywordSet.metadata := None |}.

Definition extractKeywords (text : jsstring) : outcome KeywordSet.t :=
  if (length text =? 0) || (length (trim text) =? 0) then Returns emptyKeywordSet
  else
    let cleanText := toLowerCase text in
    tfidfKeywords <- extractTFIDFKeywords text ;;
    let skills := extractSkills cleanText in
    let actionVerbs := extractActionVerbs cleanText in
    phrases <- extractPhrases text ;;
    entities <- extractEntities text ;;
    let allKeywords := newSet (tfidfKeywords ++ map skill skills ++ phrases) in
    Returns
      {| KeywordSet.keywords := allKeywords;
         KeywordSet.skills := skills;
         KeywordSet.actionVerbs := actionVerbs;
         KeywordSet.phrases := phrases;
         KeywordSet.entities := entities;
         KeywordSet.metadata :=
           Some {| totalKeywords := len allKeywords;
                   skillsCount := len skills;
                   actionVerbsCount := len actionVerbs |} |}.

End ExtractKeywords.

(* ================================================================== *)
(** ** services/atsScorer.js *)

#[local] Open Scope Q_scope.

Module KeywordScore.
Record t := {
  score : Q;
  matched : Z;
  missing : Z;
  matchRate : Q;
  matchedKeywords : list jsstring;
  missingKeywords : list jsstring }.
End KeywordScore.

Module SkillsAnalysis.
Record t := {
  matched : list SkillRecord;
  missing : list SkillRecord;
  categories : list (category * Z);
  totalResumeSkills : option Z;
  totalJobSkills : option Z }.
End SkillsAnalysis.

Module SkillsScore.
Record t := {
  score : Q;
  coverage : Z;
  criticalMatched : Z;
  analysis : SkillsAnalysis.t }.
End SkillsScore.

Module ExperienceAnalysis.
Record t := {
  resumeYears : option Z;
  requiredYears : option Z;
  meetsRequirement : bool;
  hasActionVerbs : bool }.
End ExperienceAnalysis.

Module ExperienceScore.
Record t := { score : Q; analysis : ExperienceAnalysis.t }.
End ExperienceScore.

Module EducationAnalysis.
Record t := {
  resume : Education.t;
  required : Education.t;
  meetsRequirement : bool }.
End EducationAnalysis.

Module EducationScore.
Record t := { score : Q; analysis : EducationAnalysis.t }.
End EducationScore.

Module FormatAnalysis.
Record t := { issues : list jsstring; strengths : list jsstring }.
End FormatAnalysis.

Module Sections.
Record t := { contact : bool; experience : bool; education : bool; skills : bool }.
End Sections.

Module FormatScore.
Record t := { score : Q; sections : Sections.t; analysis : FormatAnalysis.t }.
End FormatScore.

Definition category_eqb (a b : category) : bool :=
  match a, b with
  | programming, programming | frameworks, frameworks | databases, databases
  | cloud, cloud | dataScience, dataScience | tools, tools
  | methodologies, methodologies => true
  | _, _ => false
  end.

(** [categories[c] = (categories[c] || 0) + 1] on an object used as a map;
    the keys keep their insertion order. *)
Fixpoint bump (c : category) (m : list (category * Z)) : list (category * Z) :=
  match m with
  | [] => [(c, 1%Z)]
  | (c', n) :: m' => if category_eqb c c' then (c', (n + 1)%Z) :: m' else (c', n) :: bump c m'
  end.

(** ≥ and > on numbers. *)
Definition geq (x y : Q) : bool := Qle_bool y x.
Definition gt (x y : Q) : bool := negb (Qle_bool x y).

Section Scorer.
Context {CM : CaseMap}.

Definition calculateKeywordScore (resumeKeywords jobKeywords : KeywordSet.t)
    : KeywordScore.t :=
  let comparison :=
    compareKeywords (KeywordSet.keywords resumeKeywords) (KeywordSet.keywords jobKeywords) in
  let score := Comparison.matchRate comparison in
  let techKeywordsMatch :=
    compareKeywords (map skill (KeywordSet.skills resumeKeywords))
                    (map skill (KeywordSet.skills jobKeywords)) in
  let score :=
    if gt (Comparison.matchRate techKeywordsMatch) 70 then JS.min 100 (score + 10)
    else score in
  {| KeywordScore.score := score;
     KeywordScore.matched := Comparison.matchedCount comparison;
     KeywordScore.missing := Comparison.missingCount comparison;
     KeywordScore.matchRate :=
       inject_Z (round (Comparison.matchRate comparison * 10)) / 10;
     KeywordScore.matchedKeywords := slice0 20 (Comparison.matched comparison);
     KeywordScore.missingKeywords := slice0 20 (Comparison.missing comparison) |}.

(** The [forEach] of [calculateSkillsScore] that sorts the job skills into
    matched and missing. *)
Definition sortSkill (resumeSkillNames : list jsstring)
    (acc : list SkillRecord * list SkillRecord) (jobSkill : SkillRecord)
    : list SkillRecord * list SkillRecord :=
  if mem (toLowerCase (skill jobSkill)) resumeSkillNames
  then (fst acc ++ [jobSkill], snd acc)
  else (fst acc, snd acc ++ [jobSkill]).

Definition calculateSkillsScore (resumeText jobDescription : jsstring) : SkillsScore.t :=
  let resumeSkills := extractSkills (toLowerCase resumeText) in
  let jobSkills := extractSkills (toLowerCase jobDescription) in
  if (len jobSkills =? 0)%Z then
    {| SkillsScore.score := 75;
       SkillsScore.coverage := 75;
       SkillsScore.criticalMatched := 0;
       SkillsScore.analysis :=
         {| SkillsAnalysis.matched := []; SkillsAnalysis.missing := [];
            SkillsAnalysis.categories := [];
            SkillsAnalysis.totalResumeSkills := None;
            SkillsAnalysis.totalJobSkills := None |} |}
  else
    let resumeSkillNames := map (fun s => toLowerCase (skill s)) resumeSkills in
    let '(matchedSkills, missingSkills) :=
      fold_left (sortSkill resumeSkillNames) jobSkills ([], []) in
    let coverage :=
      if (0 <? len jobSkills)%Z
      then (inject_Z (len matchedSkills) / inject_Z (len jobSkills)) * 100 else 0 in
    let score := coverage in
    let extraSkills := (len resumeSkills - len matchedSkills)%Z in
    let score :=
      if (5 <? extraSkills)%Z && gt coverage 50 then JS.min 100 (score + 10) else score in
    let categories :=
      fold_left (fun categories s => bump (skillCategory s) categories) matchedSkills [] in
    {| SkillsScore.score := score;
       SkillsScore.coverage := round coverage;
       SkillsScore.criticalMatched := len matchedSkills;
       SkillsScore.analysis :=
         {| SkillsAnalysis.matched := slice0 15 matchedSkills;
            SkillsAnalysis.missing := slice0 10 missingSkills;
            SkillsAnalysis.categories := categories;
            SkillsAnalysis.totalResumeSkills := Some (len resumeSkills);
            SkillsAnalysis.totalJobSkills := Some (len jobSkills) |} |}.

Definition leadershipTerms : list string :=
  ["led"; "managed"; "directed"; "supervised"; "mentored"]%string.

(** The first [if] of [calculateExperienceScore]: score and
    [meetsRequirement] from the two years. *)
Definition compareYears (resumeYears jobYears : option Z) : Q * bool :=
  match jobYears with
  | Some jobYears =>
      match resumeYears with
      | None => (50, false)
      | Some resumeYears =>
          if (jobYears <=? resumeYears)%Z then (100, true)
          else if geq (inject_Z resumeYears) (inject_Z jobYears * 0.75) then (80, true)
          else (60, false)
      end
  | None =>
      match resumeYears with
      | Some resumeYears => if (0 <? resumeYears)%Z then (85, false) else (70, false)
      | None => (70, false)
      end
  end.

Definition calculateExperienceScore (resumeText jobDescription : jsstring)
    : ExperienceScore.t :=
  let resumeYears := extractYearsOfExperience resumeText in
  let jobYears := extractYearsOfExperience jobDescription in
  let '(score, meets) := compareYears resumeYears jobYears in
  let actionVerbs := extractActionVerbs (toLowerCase resumeText) in
  let strong := (5 <=? len actionVerbs)%Z in
  let score := if strong then JS.min 100 (score + 10) else score in
  let hasLeadership :=
    existsb (fun term => includes (toLowerCase resumeText) (str term)) leadershipTerms in
  let score := if hasLeadership then JS.min 100 (score + 5) else score in
  {| ExperienceScore.score := score;
     ExperienceScore.analysis :=
       {| ExperienceAnalysis.resumeYears := resumeYears;
          ExperienceAnalysis.requiredYears := jobYears;
          ExperienceAnalysis.meetsRequirement := meets;
          ExperienceAnalysis.hasActionVerbs := strong |} |}.

Definition degreeRank (d : degree) : Z :=
  match d with phd => 4 | masters => 3 | bachelors => 2 | associates => 1 end.

(** [degreeRank[d] || 0] *)
Definition rankOrZero (d : option degree) : Z :=
  match d with Some d => degreeRank d | None => 0 end.

Definition calculateEducationScore (resumeText jobDescription : jsstring)
    : EducationScore.t :=
  let resumeEducation := detectEducation resumeText in
  let jobEducation := detectEducation jobDescription in
  let score : Q :=
    match Education.highestDegree jobEducation with
    | None => match Education.highestDegree resumeEducation with Some _ => 90 | None => 70 end
    | Some _ =>
        let resumeRank := rankOrZero (Education.highestDegree resumeEducation) in
        let jobRank := rankOrZero (Education.highestDegree jobEducation) in
        if (jobRank <=? resumeRank)%Z then 100
        else if (resumeRank =? jobRank - 1)%Z then 75
        else if (0 <? resumeRank)%Z then 60
        else 40
    end in
  let score :=
    if (0 <? len (Education.fieldOfStudy jobEducation))%Z
       && (0 <? len (Education.fieldOfStudy resumeEducation))%Z
    then
      let fieldMatch :=
        existsb (fun field => mem field (Education.fieldOfStudy resumeEducation))
                (Education.fieldOfStudy jobEducation) in
      if fieldMatch then JS.min 100 (score + 10) else score
    else score in
  {| EducationScore.score := score;
     EducationScore.analysis :=
       {| EducationAnalysis.resume := resumeEducation;
          EducationAnalysis.required := jobEducation;
          EducationAnalysis.meetsRequirement :=
            match Education.highestDegree resumeEducation,
                  Education.highestDegree jobEducation with
            | Some r, Some j => (degreeRank j <=? degreeRank r)%Z
            | _, _ => false
            end |} |}.

End Scorer.

(** *** calculateFormatScore *)

(** /(email|phone|address|linkedin)/i and the three other section tests. *)
Definition contactPattern : regex :=
  Group (alts [liti "email"; liti "phone"; liti "address"; liti "linkedin"]).
Definition experiencePattern : regex :=
  Group (alts [liti "experience"; liti "employment"; liti "work history"]).
Definition educationPattern : regex :=
  Group (alts [liti "education"; liti "academic"; liti "degree"]).
Definition skillsPattern : regex :=
  Group (alts [liti "skills"; liti "technical"; liti "competencies"]).

Definition sectionPatterns : list (string * regex) :=
  [("contact", contactPattern); ("experience", experiencePattern);
   ("education", educationPattern); ("skills", skillsPattern)]%string.

(** /\s+/ *)
Definition whitespaceRun : regex := Plus ws.

(** /\n[\s]*[-•*]/g: the bullet is U+2022. *)
Definition bulletPattern : regex :=
  seq [chr 10; Star ws; Cls (oneOf [45; 8226; 42]%N)].

(** /\d+[%$]?/g *)
Definition numberPattern : regex := Cat digits (Opt (Cls (oneOf [37; 36]%N))).

(** /[™®©♦●◆▪]/g: U+2122, U+00AE, U+00A9, U+2666, U+25CF, U+25C6, U+25AA. *)
Definition specialChars : regex :=
  Cls (oneOf [8482; 174; 169; 9830; 9679; 9670; 9642]%N).

(** [section.charAt(0).toUpperCase() + section.slice(1)] on an ASCII name. *)
Definition capitalize (s : jsstring) : jsstring :=
  match s with
  | [] => []
  | c :: s' => canon c :: s'
  end.

(** The state the body of [calculateFormatScore] updates: [score] and the
    two lists of [analysis]. *)
Record FormatState := {
  fscore : Q;
  fissues : list jsstring;
  fstrengths : list jsstring }.

Definition addScore (d : Q) (st : FormatState) : FormatState :=
  {| fscore := fscore st + d; fissues := fissues st; fstrengths := fstrengths st |}.
Definition pushIssue (m : jsstring) (st : FormatState) : FormatState :=
  {| fscore := fscore st; fissues := fissues st ++ [m]; fstrengths := fstrengths st |}.
Definition pushStrength (m : jsstring) (st : FormatState) : FormatState :=
  {| fscore := fscore st; fissues := fissues st; fstrengths := fstrengths st ++ [m] |}.

Definition foundSections (resumeText : jsstring) : Sections.t :=
  {| Sections.contact := test contactPattern resumeText;
     Sections.experience := test experiencePattern resumeText;
     Sections.education := test educationPattern resumeText;
     Sections.skills := test skillsPattern resumeText |}.

(** The [forEach] over the sections: [sectionCount] and the messages. *)
Definition checkSection (resumeText : jsstring) (acc : Z * FormatState)
    (section : string * regex) : Z * FormatState :=
  let '(sectionCount, st) := acc in
  if test (snd section) resumeText
  then ((sectionCount + 1)%Z,
        pushStrength (capitalize (str (fst section)) ++ str " section present") st)
  else (sectionCount,
        pushIssue (str "Missing " ++ str (fst section) ++ str " section") st).

Definition checkSections (resumeText : jsstring) (st : FormatState) : FormatState :=
  let '(sectionCount, st) := fold_left (checkSection resumeText) sectionPatterns (0%Z, st) in
  addScore ((inject_Z sectionCount / inject_Z (len sectionPatterns)) * 40) st.

Definition wordCount (text : jsstring) : Z := len (split whitespaceRun text).

Definition checkLength (resumeText : jsstring) (st : FormatState) : FormatState :=
  let wordCount := wordCount resumeText in
  if (300 <=? wordCount)%Z && (wordCount <=? 1000)%Z
  then pushStrength (str "Optimal resume length") (addScore 20 st)
  else if (wordCount <? 300)%Z
  then pushIssue (str "Resume may be too short") (addScore 10 st)
  else pushIssue (str "Resume may be too long") (addScore 15 st).

Definition bulletPointCount (resumeText : jsstring) : Z :=
  countMatches bulletPattern resumeText.

Definition checkBullets (resumeText : jsstring) (st : FormatState) : FormatState :=
  if (5 <=? bulletPointCount resumeText)%Z
  then pushStrength (str "Good use of bullet points") (addScore 15 st)
  else pushIssue (str "Consider adding more bullet points") (addScore 5 st).

Definition numberCount (resumeText : jsstring) : Z :=
  countMatches numberPattern resumeText.

Definition checkNumbers (resumeText : jsstring) (st : FormatState) : FormatState :=
  if (5 <=? numberCount resumeText)%Z
  then pushStrength (str "Contains quantifiable achievements") (addScore 15 st)
  else pushIssue (str "Add more quantifiable results") (addScore 5 st).

Definition checkSpecialChars (resumeText : jsstring) (st : FormatState) : FormatState :=
  if test specialChars resumeText
  then pushIssue (str "Contains special characters that may confuse ATS") (addScore (-10) st)
  else addScore 10 (pushStrength (str "No problematic special characters") st).

Definition formatChecks (resumeText : jsstring) : FormatState :=
  let st := {| fscore := 0; fissues := []; fstrengths := [] |} in
  let st := checkSections resumeText st in
  let st := checkLength resumeText st in
  let st := checkBullets resumeText st in
  let st := checkNumbers resumeText st in
  checkSpecialChars resumeText st.

Definition calculateFormatScore (resumeText : jsstring) : FormatScore.t :=
  let st := formatChecks resumeText in
  {| FormatScore.score := JS.max 0 (JS.min 100 (fscore st));
     FormatScore.sections := foundSections resumeText;
     FormatScore.analysis :=
       {| FormatAnalysis.issues := fissues st;
          FormatAnalysis.strengths := fstrengths st |} |}.

(** *** The derived metrics *)

(** /\d+%/g, /\$[\d,]+/g, /\d+[\s]*(million|thousand|billion)/gi,
    /increased|decreased|improved|reduced[\s\w]*by[\s]*\d+/gi,
    /\d+[\s]*(years|months|weeks|days)/gi *)
Definition achievementPatterns : list regex :=
  [ Cat digits (chr 37);
    Cat (chr 36) (Plus (Cls (fun c => isDigit c || char_eqb c 44%N)));
    seq [digits; Star ws; Group (alts [liti "million"; liti "thousand"; liti "billion"])];
    alts [liti "increased"; liti "decreased"; liti "improved";
          seq [liti "reduced"; Star (Cls (fun c => isSpace c || isWord c));
               liti "by"; Star ws; digits]];
    seq [digits; Star ws;
         Group (alts [liti "years"; liti "months"; liti "weeks"; liti "days"])] ].

Definition countOver (patterns : list regex) (text : jsstring) : Z :=
  fold_left (fun count pattern => (count + countMatches pattern text)%Z) patterns 0%Z.

Definition countQuantifiableAchievements (text : jsstring) : Z :=
  countOver achievementPatterns text.

Definition calculateReadabilityScore (avgSentenceLength activeVoiceRatio : Q) : Q :=
  let score := 100 in
  let score :=
    if gt avgSentenceLength 25 then score - 20
    else if gt avgSentenceLength 20 then score - 10
    else score in
  let score := if gt 10 avgSentenceLength then score - 15 else score in
  let score := if gt activeVoiceRatio 50 then score + 10 else score in
  JS.max 0 (JS.min 100 score).

Module ContentQuality.
Record t := {
  avgSentenceLength : Z;
  activeVoiceRatio : Z;
  usesSTARMethod : bool;
  starIndicatorCount : Z;
  readabilityScore : Q;
  wordCount : Z;
  sentenceCount : Z }.
End ContentQuality.

(** /[.!?]+/ *)
Definition sentenceEnd : regex := Plus (Cls (oneOf [46; 33; 63]%N)).

Definition starIndicators : list regex :=
  [ alts [liti "achieved"; liti "accomplished"; liti "attained"];
    alts [liti "resulted in"; liti "led to"; liti "contributed to"];
    alts [liti "responsible for"; liti "tasked with"];
    alts [liti "implemented"; liti "executed"; liti "delivered"] ].

Section Quality.
Context {CM : CaseMap}.

Definition analyzeContentQuality (text : jsstring) : ContentQuality.t :=
  let sentences := filter (fun s => (0 <? length (trim s))%nat) (split sentenceEnd text) in
  let words := split whitespaceRun text in
  let avgSentenceLength :=
    if (0 <? len sentences)%Z then inject_Z (len words) / inject_Z (len sentences) else 0 in
  let actionVerbs := extractActionVerbs (toLowerCase text) in
  let activeVoiceRatio :=
    if (0 <? len sentences)%Z
    then (inject_Z (len actionVerbs) / inject_Z (len sentences)) * 100 else 0 in
  let starCount := countOver starIndicators text in
  let usesSTAR := (3 <=? starCount)%Z in
  {| ContentQuality.avgSentenceLength := round avgSentenceLength;
     ContentQuality.activeVoiceRatio := round activeVoiceRatio;
     ContentQuality.usesSTARMethod := usesSTAR;
     ContentQuality.starIndicatorCount := starCount;
     ContentQuality.readabilityScore :=
       calculateReadabilityScore avgSentenceLength activeVoiceRatio;
     ContentQuality.wordCount := len words;
     ContentQuality.sentenceCount := len sentences |}.

End Quality.

Module ContactInfo.
Record t := { hasEmail : bool; hasPhone : bool; hasLinkedIn : bool; hasLocation : bool }.
End ContactInfo.

Definition alnum (c : char) : bool := isLowerAZ c || isUpperAZ c || isDigit c.
Definition azAZ : regex := Cls (fun c => isLowerAZ c || isUpperAZ c).

(** /[a-zA-Z0-9._%+-]+@[a-zA-Z0-9.-]+\.[a-zA-Z]{2,}/ *)
Definition emailPattern : regex :=
  seq [Plus (Cls (fun c => alnum c || oneOf [46; 95; 37; 43; 45]%N c)); chr 64;
       Plus (Cls (fun c => alnum c || oneOf [46; 45]%N c)); chr 46;
       azAZ; azAZ; Star azAZ].

(** /(\+?1[-.\s]?)?\(?\d{3}\)?[-.\s]?\d{3}[-.\s]?\d{4}/ *)
Definition sepOpt : regex := Opt (Cls (fun c => oneOf [45; 46]%N c || isSpace c)).
Definition digit : regex := Cls isDigit.
Definition phonePattern : regex :=
  seq [Opt (Group (seq [Opt plusSign; chr 49; sepOpt]));
       Opt (chr 40); digit; digit; digit; Opt (chr 41); sepOpt;
       digit; digit; digit; sepOpt; digit; digit; digit; digit].

Definition checkContactInfo (text : jsstring) : ContactInfo.t :=
  {| ContactInfo.hasEmail := test emailPattern text;
     ContactInfo.hasPhone := test phonePattern text;
     ContactInfo.hasLinkedIn := test (liti "linkedin.com") text;
     ContactInfo.hasLocation :=
       test (Group (alts [liti "city"; liti "state"; liti "address"; liti "location"])) text |}.

Definition isOptimalLength (text : jsstring) : bool :=
  let wordCount := len (split whitespaceRun text) in
  (300 <=? wordCount)%Z && (wordCount <=? 1000)%Z.

Definition estimatePages (text : jsstring) : Z :=
  let wordCount := len (split whitespaceRun text) in
  ceil (inject_Z wordCount / 500).

Module Grade.
Inductive t := A | B | C | D | F.
End Grade.

Definition getScoreGrade (score : Z) : Grade.t :=
  if (90 <=? score)%Z then Grade.A
  else if (80 <=? score)%Z then Grade.B
  else if (70 <=? score)%Z then Grade.C
  else if (60 <=? score)%Z then Grade.D
  else Grade.F.

(** *** calculateScore *)

Module Part.
Record t := { score : Z; weight : Z; weightedScore : Z }.
End Part.

Module Breakdown.
Record t := {
  keywordMatch : Part.t;
  skillsAlignment : Part.t;
  experienceRelevance : Part.t;
  educationMatch : Part.t;
  formatReadability : Part.t }.
End Breakdown.

Module ResumeLength.
Record t := { words : Z; optimal : bool; pages : Z }.
End ResumeLength.

Module Metrics.
Record t := {
  keywordsMatched : Z;
  keywordsMissing : Z;
  matchRate : Q;
  skillsCoverage : Z;
  criticalSkillsMatched : Z;
  actionVerbsCount : Z;
  quantifiableAchievements : Z;
  resumeLength : ResumeLength.t;
  contactInfo : ContactInfo.t;
  sectionsComplete : Sections.t }.
End Metrics.

Module KeywordAnalysis.
Record t := {
  matched : list jsstring;
  missing : list jsstring;
  matchRate : Q }.
End KeywordAnalysis.

Module ScoreResult.
Record t := {
  overallScore : Z;
  scoreGrade : Grade.t;
  breakdown : Breakdown.t;
  metrics : Metrics.t;
  keywordAnalysis : KeywordAnalysis.t;
  skillsAnalysis : SkillsAnalysis.t;
  contentQuality : ContentQuality.t;
  formatAnalysis : FormatAnalysis.t }.
End ScoreResult.

(** One entry of [breakdown]. *)
Definition part (score : Q) (weight : Z) (factor : Q) : Part.t :=
  {| Part.score := round score;
     Part.weight := weight;
     Part.weightedScore := round (score * factor) |}.

(** The weighted sum under [Math.round] in [calculateScore]. *)
Definition weighted (k s e d f : Q) : Q :=
  k * 0.40 + s * 0.20 + e * 0.15 + d * 0.10 + f * 0.15.

Section CalculateScore.
Context {CM : CaseMap}.

(** The two [console.log] lines are not part of the returned structure and
    are left out. *)
Definition calculateScore (resumeText jobDescription : jsstring)
    (resumeKeywords jobKeywords : KeywordSet.t) (industry : jsstring)
    : ScoreResult.t :=
  let keywordScore := calculateKeywordScore resumeKeywords jobKeywords in
  let skillsScore := calculateSkillsScore resumeText jobDescription in
  let experienceScore := calculateExperienceScore resumeText jobDescription in
  let educationScore := calculateEducationScore resumeText jobDescription in
  let formatScore := calculateFormatScore resumeText in
  let overallScore :=
    round (weighted (KeywordScore.score keywordScore) (SkillsScore.score skillsScore)
                    (ExperienceScore.score experienceScore)
                    (EducationScore.score educationScore)
                    (FormatScore.score formatScore)) in
  let metrics :=
    {| Metrics.keywordsMatched := KeywordScore.matched keywordScore;
       Metrics.keywordsMissing := KeywordScore.missing keywordScore;
       Metrics.matchRate := KeywordScore.matchRate keywordScore;
       Metrics.skillsCoverage := SkillsScore.coverage skillsScore;
       Metrics.criticalSkillsMatched := SkillsScore.criticalMatched skillsScore;
       Metrics.actionVerbsCount := len (KeywordSet.actionVerbs resumeKeywords);
       Metrics.quantifiableAchievements := countQuantifiableAchievements resumeText;
       Metrics.resumeLength :=
         {| ResumeLength.words := len (split whitespaceRun resumeText);
            ResumeLength.optimal := isOptimalLength resumeText;
            ResumeLength.pages := estimatePages resumeText |};
       Metrics.contactInfo := checkContactInfo resumeText;
       Metrics.sectionsComplete := FormatScore.sections formatScore |} in
  {| ScoreResult.overallScore := overallScore;
     ScoreResult.scoreGrade := getScoreGrade overallScore;
     ScoreResult.breakdown :=
       {| Breakdown.keywordMatch := part (KeywordScore.score keywordScore) 40 0.40;
          Breakdown.skillsAlignment := part (SkillsScore.score skillsScore) 20 0.20;
          Breakdown.experienceRelevance :=
            part (ExperienceScore.score experienceScore) 15 0.15;
          Breakdown.educationMatch := part (EducationScore.score educationScore) 10 0.10;
          Breakdown.formatReadability := part (FormatScore.score formatScore) 15 0.15 |};
     ScoreResult.metrics := metrics;
     ScoreResult.keywordAnalysis :=
       {| KeywordAnalysis.matched := KeywordScore.matchedKeywords keywordScore;
          KeywordAnalysis.missing := KeywordScore.missingKeywords keywordScore;
          KeywordAnalysis.matchRate := KeywordScore.matchRate keywordScore |};
     ScoreResult.skillsAnalysis := SkillsScore.analysis skillsScore;
     ScoreResult.contentQuality := analyzeContentQuality resumeText;
     ScoreResult.formatAnalysis := FormatScore.analysis formatScore |}.

End CalculateScore.

(** *** generateRecommendations *)

Inductive priority := high | medium | low.

Module Recommendation.
Record t := {
  priority : priority;
  category : jsstring;
  title : jsstring;
  description : jsstring;
  action : jsstring }.
End Recommendation.

(** [priorityOrder[p]] *)
Definition priorityOrder (p : priority) : Z :=
  match p with high => 0 | medium => 1 | low => 2 end.

(** [Array.prototype.join]. *)
Fixpoint join (sep : jsstring) (l : list jsstring) : jsstring :=
  match l with
  | [] => []
  | [x] => x
  | x :: l' => x ++ sep ++ join sep l'
  end.

(** A text between double quotes (U+0022). *)
Definition quoted (s : jsstring) : jsstring := [34%N] ++ s ++ [34%N].

(** A whole number inside a template literal: its decimal digits (the
    exponent form that JavaScript uses from 1e21 on is left out). *)
Definition showInt (n : Z) : jsstring := str (NilZero.string_of_int (Z.to_int n)).

(** [scoreResults.skillsAnalysis.analysis]: the object that
    [calculateSkillsScore] builds has the properties [matched], [missing],
    [categories], [totalResumeSkills] and [totalJobSkills]; [analysis] is not
    one of them, so the lookup gives [undefined]. *)
Definition analysisOfSkillsAnalysis (a : SkillsAnalysis.t) : option SkillsAnalysis.t :=
  None.

(** [scoreResults.formatAnalysis.analysis]: the object has the properties
    [issues] and [strengths] only. *)
Definition analysisOfFormatAnalysis (a : FormatAnalysis.t) : option FormatAnalysis.t :=
  None.

(** [if (c) recommendations.push(r)] *)
Definition pushWhen (c : bool) (r : Recommendation.t) (l : list Recommendation.t)
    : list Recommendation.t :=
  if c then l ++ [r] else l.

Definition keywordRecommendation (r : ScoreResult.t) : Recommendation.t :=
  let missingKeywords := slice0 10 (KeywordAnalysis.missing (ScoreResult.keywordAnalysis r)) in
  {| Recommendation.priority := high;
     Recommendation.category := str "Keywords";
     Recommendation.title := str "Improve Keyword Match";
     Recommendation.description :=
       str "Your resume matches only "
       ++ showInt (round (KeywordAnalysis.matchRate (ScoreResult.keywordAnalysis r)))
       ++ str "% of job keywords. Add these important keywords: "
       ++ join (str ", ") (slice0 5 missingKeywords);
     Recommendation.action :=
       str "Naturally incorporate missing keywords into your experience and skills sections" |}.

Definition skillsRecommendation (missingSkills : list SkillRecord) : Recommendation.t :=
  {| Recommendation.priority := high;
     Recommendation.category := str "Skills";
     Recommendation.title := str "Add Missing Technical Skills";
     Recommendation.description :=
       str "Job requires skills you haven't listed: "
       ++ join (str ", ") (map skill missingSkills);
     Recommendation.action :=
       str "Add a dedicated skills section or incorporate these skills into your experience descriptions" |}.

Definition verbsRecommendation (r : ScoreResult.t) : Recommendation.t :=
  {| Recommendation.priority := medium;
     Recommendation.category := str "Experience";
     Recommendation.title := str "Use More Action Verbs";
     Recommendation.description :=
       str "Your resume has only "
       ++ showInt (Metrics.actionVerbsCount (ScoreResult.metrics r))
       ++ str " action verbs. Strong resumes use action verbs to start bullet points.";
     Recommendation.action :=
       str "Start experience bullet points with verbs like: Developed, Implemented, Led, Achieved, Optimized" |}.

Definition impactRecommendation : Recommendation.t :=
  {| Recommendation.priority := high;
     Recommendation.category := str "Impact";
     Recommendation.title := str "Add Quantifiable Results";
     Recommendation.description :=
       str "Your resume lacks measurable achievements. Numbers make your impact concrete.";
     Recommendation.action :=
       str "Add metrics: " ++ quoted (str "Increased sales by 30%") ++ str ", "
       ++ quoted (str "Managed team of 5") ++ str ", "
       ++ quoted (str "Reduced costs by $50K") |}.

Definition formatRecommendation (issues : list jsstring) : Recommendation.t :=
  {| Recommendation.priority := medium;
     Recommendation.category := str "Format";
     Recommendation.title := str "Improve ATS Readability";
     Recommendation.description := join (str "; ") issues;
     Recommendation.action :=
       str "Use standard section headers, add bullet points, and ensure all sections are present" |}.

Definition expandRecommendation : Recommendation.t :=
  {| Recommendation.priority := medium;
     Recommendation.category := str "Length";
     Recommendation.title := str "Expand Your Resume";
     Recommendation.description :=
       str "Your resume is too brief. Add more detail about your experiences and achievements.";
     Recommendation.action :=
       str "Aim for 400-800 words (1-2 pages). Add more bullet points to each role." |}.

Definition condenseRecommendation : Recommendation.t :=
  {| Recommendation.priority := low;
     Recommendation.category := str "Length";
     Recommendation.title := str "Consider Condensing";
     Recommendation.description :=
       str "Your resume is quite long. Focus on most relevant and recent experiences.";
     Recommendation.action :=
       str "Aim for 1-2 pages. Remove older or less relevant experiences." |}.

(** [missingContact]: the three pushes, in order. *)
Definition missingContact (contact : ContactInfo.t) : list jsstring :=
  (if ContactInfo.hasEmail contact then [] else [str "email"])
  ++ (if ContactInfo.hasPhone contact then [] else [str "phone"])
  ++ (if ContactInfo.hasLinkedIn contact then [] else [str "LinkedIn"]).

Definition contactRecommendation (missing : list jsstring) : Recommendation.t :=
  {| Recommendation.priority := high;
     Recommendation.category := str "Contact";
     Recommendation.title := str "Complete Contact Information";
     Recommendation.description := str "Missing: " ++ join (str ", ") missing;
     Recommendation.action := str "Add all contact methods at the top of your resume" |}.

Definition educationRecommendation : Recommendation.t :=
  {| Recommendation.priority := medium;
     Recommendation.category := str "Education";
     Recommendation.title := str "Highlight Education";
     Recommendation.description :=
       str "Ensure your education section clearly states your degree and field of study";
     Recommendation.action :=
       str "Use clear format: "
       ++ quoted (str "Bachelor of Science in Computer Science, University Name, Year") |}.

(** The recommendations in the order they are pushed, before the sort. *)
Definition pushedRecommendations (r : ScoreResult.t) : list Recommendation.t :=
  let b := ScoreResult.breakdown r in
  let m := ScoreResult.metrics r in
  let recommendations := [] in
  let recommendations :=
    pushWhen (Part.score (Breakdown.keywordMatch b) <? 70)%Z
      (keywordRecommendation r) recommendations in
  let recommendations :=
    if (Part.score (Breakdown.skillsAlignment b) <? 70)%Z then
      match analysisOfSkillsAnalysis (ScoreResult.skillsAnalysis r) with
      | Some analysis =>
          let missingSkills := slice0 5 (SkillsAnalysis.missing analysis) in
          pushWhen (0 <? len missingSkills)%Z (skillsRecommendation missingSkills)
            recommendations
      | None => recommendations
      end
    else recommendations in
  let recommendations :=
    pushWhen (Metrics.actionVerbsCount m <? 5)%Z (verbsRecommendation r) recommendations in
  let recommendations :=
    pushWhen (Metrics.quantifiableAchievements m <? 3)%Z impactRecommendation
      recommendations in
  let recommendations :=
    if (Part.score (Breakdown.formatReadability b) <? 70)%Z then
      match analysisOfFormatAnalysis (ScoreResult.formatAnalysis r) with
      | Some analysis =>
          let issues := FormatAnalysis.issues analysis in
          pushWhen (0 <? len issues)%Z (formatRecommendation issues) recommendations
      | None => recommendations
      end
    else recommendations in
  let recommendations :=
    if negb (ResumeLength.optimal (Metrics.resumeLength m)) then
      if (ResumeLength.words (Metrics.resumeLength m) <? 300)%Z
      then recommendations ++ [expandRecommendation]
      else recommendations ++ [condenseRecommendation]
    else recommendations in
  let recommendations :=
    let missing := missingContact (Metrics.contactInfo m) in
    pushWhen (0 <? len missing)%Z (contactRecommendation missing) recommendations in
  pushWhen (Part.score (Breakdown.educationMatch b) <? 70)%Z educationRecommendation
    recommendations.

(** [resumeText] and [jobDescription] are parameters that the body never
    reads. *)
Definition generateRecommendations (scoreResults : ScoreResult.t)
    (resumeText jobDescription : jsstring) : list Recommendation.t :=
  stableSort (fun a b =>
      (priorityOrder (Recommendation.priority b)
       <? priorityOrder (Recommendation.priority a))%Z)
    (pushedRecommendations scoreResults).

#[local] Close Scope Q_scope.

(* ================================================================== *)
(** * The claims, in the terms of the program *)

#[local] Open Scope Q_scope.

Section Readings.
Context {CM : CaseMap}.

(** The test of the claim, on the keyword lists as given: some resume
    keyword equals the job keyword, contains it or is contained in it, case
    left aside. *)
Definition presentIn (resumeKeywords : list jsstring) (keyword : jsstring) : bool :=
  existsb (fun r =>
      string_eqb (toLowerCase r) (toLowerCase keyword)
      || includes (toLowerCase r) (toLowerCase keyword)
      || includes (toLowerCase keyword) (toLowerCase r)) resumeKeywords.

(** The number of job keywords the claim counts as matched. *)
Definition matchedJobKeywords (resumeKeywords jobKeywords : list jsstring) : Z :=
  len (filter (presentIn resumeKeywords) jobKeywords).

(** The job skills the resume has, and the coverage they give. *)
Definition matchedJobSkills (resumeText jobDescription : jsstring) : list SkillRecord :=
  let names := map (fun s => toLowerCase (skill s)) (extractSkills (toLowerCase resumeText)) in
  filter (fun s => mem (toLowerCase (skill s)) names) (extractSkills (toLowerCase jobDescription)).

Definition skillsCoverage (resumeText jobDescription : jsstring) : Q :=
  inject_Z (len (matchedJobSkills resumeText jobDescription))
  / inject_Z (len (extractSkills (toLowerCase jobDescription))) * 100.

Definition extraSkills (resumeText jobDescription : jsstring) : Z :=
  (len (extractSkills (toLowerCase resumeText))
   - len (matchedJobSkills resumeText jobDescription))%Z.

(** The rule of the claim: the bonus from 5 extra skills on. *)
Definition claimedSkillsScore (resumeText jobDescription : jsstring) : Q :=
  let coverage := skillsCoverage resumeText jobDescription in
  if (5 <=? extraSkills resumeText jobDescription)%Z && gt coverage 50
  then JS.min 100 (coverage + 10)%Q else coverage.

End Readings.

(** The formula of the weighted breakdown, read on the scores that
    [breakdown] reports. *)
Definition formulaOnBreakdown (b : Breakdown.t) : Z :=
  round (weighted (inject_Z (Part.score (Breakdown.keywordMatch b)))
                  (inject_Z (Part.score (Breakdown.skillsAlignment b)))
                  (inject_Z (Part.score (Breakdown.experienceRelevance b)))
                  (inject_Z (Part.score (Breakdown.educationMatch b)))
                  (inject_Z (Part.score (Breakdown.formatReadability b)))).




(** '-', '•' (U+2022) or '*'. *)
Definition isBullet (c : char) : bool := oneOf [45; 8226; 42]%N c.

(** The lines of a text, as [text.split('\n')] gives them. *)
Fixpoint lines (s : jsstring) : list jsstring :=
  match s with
  | [] => [[]]
  | c :: t =>
      if char_eqb 10%N c then [] :: lines t
      else match lines t with
           | l :: ls => (c :: l) :: ls
           | [] => [[c]]
           end
  end.

(** A line that starts with '-', '•' or '*' after optional whitespace. *)
Definition startsWithBullet (line : jsstring) : bool :=
  match trimStart line with
  | c :: _ => isBullet c
  | [] => false
  end.

(** The count of the claim: all the bullet lines of the text. *)
Definition bulletLines (text : jsstring) : Z :=
  len (filter startsWithBullet (lines text)).

(** The bullet lines that come after a line break: all but the first line. *)
Definition bulletLinesAfterBreak (text : jsstring) : Z :=
  len (filter startsWithBullet (tl (lines text))).

(** The bullets that open a line, read from left to right; [armed] tells that
    only whitespace has been read since the start of the line. *)
Fixpoint openingBullets (armed : bool) (s : jsstring) : nat :=
  match s with
  | [] => 0
  | c :: t =>
      if char_eqb 10%N c then openingBullets true t
      else if isSpace c then openingBullets armed t
      else if isBullet c then (if armed then 1 else 0) + openingBullets false t
      else openingBullets false t
  end.

(** The position after the longest run of code units of a class. *)
Fixpoint afterRun (f : char -> bool) (prev : option char) (s : jsstring) : cursor :=
  match s with
  | c :: t => if f c then afterRun f (Some c) t else Cursor prev s
  | [] => Cursor prev []
  end.

(** The points of each rule of [calculateFormatScore]. *)
Definition presentSections (text : jsstring) : Z :=
  len (filter (fun section => test (snd section) text) sectionPatterns).

Definition sectionPoints (text : jsstring) : Q :=
  (inject_Z (presentSections text) / 4 * 40)%Q.

Definition lengthPoints (text : jsstring) : Q :=
  if (300 <=? wordCount text)%Z && (wordCount text <=? 1000)%Z then 20%Q
  else if (wordCount text <? 300)%Z then 10%Q else 15%Q.

Definition bulletPoints (text : jsstring) : Q :=
  if (5 <=? bulletLinesAfterBreak text)%Z then 15%Q else 5%Q.

Definition numberPoints (text : jsstring) : Q :=
  if (5 <=? numberCount text)%Z then 15%Q else 5%Q.

Definition specialPoints (text : jsstring) : Q :=
  if test specialChars text then (-10)%Q else 10%Q.

(** The bullet rule as the claim states it: every bullet line counts. *)
Definition claimedBulletPoints (text : jsstring) : Q :=
  if (5 <=? bulletLines text)%Z then 15%Q else 5%Q.

Definition noPoints : FormatState := {| fscore := 0; fissues := []; fstrengths := [] |}.

#[local] Close Scope Q_scope.

(** The grades in order: F, D, C, B, A. *)
Definition gradeRank (g : Grade.t) : Z :=
  match g with Grade.A => 4 | Grade.B => 3 | Grade.C => 2 | Grade.D => 1 | Grade.F => 0 end.

(** Is there a recommendation of this category, of this title? *)
Definition hasCategory (c : jsstring) (l : list Recommendation.t) : bool :=
  existsb (fun x => string_eqb (Recommendation.category x) c) l.

Definition hasTitle (t : jsstring) (l : list Recommendation.t) : bool :=
  existsb (fun x => string_eqb (Recommendation.title x) t) l.

(** The numbers that the matches of the three patterns of
    [extractYearsOfExperience] capture, pattern after pattern. *)
Definition yearCandidates (text : jsstring) : list Z :=
  flat_map (fun p => map (fun x => parseInt (group1 x)) (matches p text))
    [yearsPattern1; yearsPattern2; yearsPattern3].







(** The pattern that [detectEducation] tests for a degree. *)
Definition degreePattern (d : degree) : regex :=
  match d with
  | phd => phdPattern
  | masters => mastersPattern
  | bachelors => bachelorsPattern
  | associates => associatesPattern
  end.

(** The maximal runs of code units of a class in a text; [inRun] tells that
    the code unit before is of the class. *)
Fixpoint runsOf (f : char -> bool) (inRun : bool) (s : jsstring) : nat :=
  match s with
  | [] => 0
  | c :: t =>
      if f c then (if inRun then 0 else 1) + runsOf f true t
      else runsOf f false t
  end.

Definition whitespaceRuns (s : jsstring) : nat := runsOf isSpace false s.

Definition digitRuns (s : jsstring) : nat := runsOf isDigit false s.

(** A list of strings without repetition. *)
Fixpoint nodupb (l : list jsstring) : bool :=
  match l with
  | [] => true
  | x :: l' => negb (mem x l') && nodupb l'
  end.

(** ** Sample inputs *)

(** A keyword set with the given keywords and nothing else. *)
Definition keywordsOnly (l : list string) : KeywordSet.t :=
  {| KeywordSet.keywords := map str l; KeywordSet.skills := [];
     KeywordSet.actionVerbs := []; KeywordSet.phrases := [];
     KeywordSet.entities := []; KeywordSet.metadata := None |}.

Module Sample.
Definition resumeText : jsstring := str "Led a sales team".
Definition jobDescription : jsstring := str "Sales manager wanted".
Definition resumeKeywords : KeywordSet.t := keywordsOnly ["sales"; "team"]%string.
Definition jobKeywords : KeywordSet.t := keywordsOnly ["sales"; "team"; "manager"]%string.
Definition result : ScoreResult.t :=
  calculateScore (CM := asciiCaseMap) resumeText jobDescription resumeKeywords jobKeywords
    (str "general").
End Sample.

Module SkillsSample.
Definition resumeText : jsstring :=
  str "Python, Java, Ruby, Rust, PHP, Swift and Kotlin developer".
Definition jobDescription : jsstring := str "Python, SQL and Java required".
End SkillsSample.

(** The resume and the job description of the scenario of the
    specification. *)
Module Scenario.
Definition resumeText : jsstring :=
  str "Experienced Python developer with 5 years experience. Led team of 5. Increased revenue by 30%. Skills: Python, SQL, AWS. Bachelor's degree in Computer Science.".
Definition jobDescription : jsstring :=
  str "Looking for Python developer with 3+ years experience. Required: Python, SQL. Bachelor's degree required.".
End Scenario.

(** Five bullet lines, the first of which opens the text. *)
Definition newline : jsstring := [10%N].

Definition fiveBullets : jsstring :=
  str "- a" ++ newline ++ str "- b" ++ newline ++ str "- c" ++ newline
  ++ str "- d" ++ newline ++ str "- e".

(** Packages that throw on every call, and packages that find nothing. *)
Definition throwingNLP : NLP :=
  {| listTerms := fun _ => Throws; nouns := fun _ => Throws;
     organizations := fun _ => Throws; places := fun _ => Throws |}.

Definition silentNLP : NLP :=
  {| listTerms := fun _ => Returns []; nouns := fun _ => Returns [];
     organizations := fun _ => Returns []; places := fun _ => Returns [] |}.

(** What [extractKeywords] returns on a short text when the packages find
    nothing. *)
Definition sampleKeywordSet : KeywordSet.t :=
  Eval vm_compute in
    match extractKeywords (CM := asciiCaseMap) (nlp := silentNLP)
            (str "Python and SQL on a data team") with
    | Returns k => k
    | Throws => emptyKeywordSet
    end.

(** A text of 300 words. *)
Definition threeHundredWords : jsstring :=
  List.concat (repeat (str "word ") 299) ++ str "word".

(* ================================================================== *)
(** * Properties *)

(** ** The matcher on small inputs *)

Example run_greedy :
  map whole (matches (Cat (Plus (Cls isDigit)) (Opt (Cls (oneOf [37; 36]%N)))) (str "a 12% b 7 $3"))
  = [str "12%"; str "7"; str "3"].
Proof. reflexivity. Qed.

Example split_ws : split (Plus (Cls isSpace)) (str "  a b ") = [[]; str "a"; str "b"; []].
Proof. reflexivity. Qed.

Example split_empty : split (Plus (Cls isSpace)) [] = [[]].
Proof. reflexivity. Qed.

Example years_scenario :
  extractYearsOfExperience (str "Experienced Python developer with 5 years experience. Led team of 5.") = Some 5%Z
  /\ extractYearsOfExperience (str "Looking for Python developer with 3+ years experience.") = Some 3%Z
  /\ extractYearsOfExperience (str "Experience: 12 Years; 7 years in sales") = Some 12%Z
  /\ extractYearsOfExperience (str "0 years of experience") = None.
Proof. vm_compute. repeat split. Qed.

Example skills_example :
  map (fun r => (skill r, skillCount r)) (extractSkills (str "sql and python, sql; ci/cd c++x"))
  = [(str "sql", 2%Z); (str "python", 1%Z); (str "c++", 1%Z); (str "ci/cd", 1%Z); (str "ci/cd", 1%Z)].
Proof. vm_compute. reflexivity. Qed.

(** ** Strings and sets *)

Lemma string_eqb_eq (a b : jsstring) : string_eqb a b = true <-> a = b.
Proof.
  revert b; induction a as [|x a IH]; intros [|y b]; simpl; split; try easy.
  - intros H. apply andb_prop in H as [Hx Hab].
    apply N.eqb_eq in Hx. apply IH in Hab. now subst.
  - intros H. injection H as -> ->. unfold char_eqb.
    rewrite N.eqb_refl. simpl. now apply IH.
Qed.

Lemma mem_In (x : jsstring) (l : list jsstring) : mem x l = true <-> In x l.
Proof.
  unfold mem. rewrite existsb_exists. split.
  - intros [y [Hy He]]. apply string_eqb_eq in He. now subst.
  - intros H. exists x. split; [assumption | now apply string_eqb_eq].
Qed.

Lemma dedupInto_In (x : jsstring) (l seen : list jsstring) :
  In x (dedupInto seen l) <-> In x seen \/ In x l.
Proof.
  revert seen; induction l as [|y l IH]; intros seen; simpl.
  - tauto.
  - destruct (mem y seen) eqn:E; rewrite IH.
    + apply mem_In in E. split; [tauto|]. intros [H|[H|H]]; subst; auto.
    + rewrite in_app_iff. simpl. tauto.
Qed.

Lemma newSet_In (x : jsstring) (l : list jsstring) : In x (newSet l) <-> In x l.
Proof. unfold newSet. rewrite dedupInto_In. simpl. tauto. Qed.

Lemma existsb_same_members {T} (f : T -> bool) (l1 l2 : list T) :
  (forall x, In x l1 <-> In x l2) -> existsb f l1 = existsb f l2.
Proof.
  intros H. apply Bool.eq_iff_eq_true. rewrite !existsb_exists.
  split; intros [x [Hx Hf]]; exists x; split; auto; now apply H.
Qed.

Lemma len_nonneg {T} (l : list T) : (0 <= len l)%Z.
Proof. unfold len. lia. Qed.

Lemma filter_split_length {T} (f : T -> bool) (l : list T) :
  (len (filter f l) + len (filter (fun x => negb (f x)) l) = len l)%Z.
Proof.
  assert (length (filter f l) + length (filter (fun x => negb (f x)) l) = length l)%nat.
  { induction l as [|x l IH]; simpl; [reflexivity|]. destruct (f x); simpl; lia. }
  unfold len. lia.
Qed.

Lemma filter_split_perm {T} (f : T -> bool) (l : list T) :
  Permutation (filter f l ++ filter (fun x => negb (f x)) l) l.
Proof.
  induction l as [|x l IH]; simpl; [constructor|].
  destruct (f x); simpl.
  - now constructor.
  - symmetry. apply Permutation_cons_app. now symmetry.
Qed.

(** ** compareKeywords *)

Section CompareKeywords.
Context {CM : CaseMap}.

Lemma classify_fold (rs jk m x : list jsstring) :
  fold_left (classify rs) jk (m, x)
  = (m ++ filter (keywordFound rs) jk,
     x ++ filter (fun k => negb (keywordFound rs k)) jk).
Proof.
  revert m x; induction jk as [|k jk IH]; intros m x; simpl.
  - now rewrite !app_nil_r.
  - unfold classify at 2. destruct (keywordFound rs k); simpl; rewrite IH;
      now rewrite <- app_assoc.
Qed.

Lemma compareKeywords_matched (rk jk : list jsstring) :
  Comparison.matched (compareKeywords rk jk)
  = filter (keywordFound (newSet (map toLowerCase rk))) jk.
Proof. unfold compareKeywords. now rewrite classify_fold. Qed.

Lemma compareKeywords_missing (rk jk : list jsstring) :
  Comparison.missing (compareKeywords rk jk)
  = filter (fun k => negb (keywordFound (newSet (map toLowerCase rk)) k)) jk.
Proof. unfold compareKeywords. now rewrite classify_fold. Qed.

Lemma matchRate_unfold (rk jk : list jsstring) :
  Comparison.matchRate (compareKeywords rk jk)
  = if (0 <? len jk)%Z
    then (inject_Z (len (Comparison.matched (compareKeywords rk jk)))
          / inject_Z (len jk) * 100)%Q
    else 0%Q.
Proof. unfold compareKeywords. now rewrite classify_fold. Qed.

Lemma compareKeywords_counts (rk jk : list jsstring) :
  Comparison.matchedCount (compareKeywords rk jk)
    = len (Comparison.matched (compareKeywords rk jk))
  /\ Comparison.missingCount (compareKeywords rk jk)
    = len (Comparison.missing (compareKeywords rk jk))
  /\ Comparison.totalJobKeywords (compareKeywords rk jk) = len jk.
Proof. unfold compareKeywords. now rewrite classify_fold. Qed.

Lemma keywordFound_presentIn (rk : list jsstring) (k : jsstring) :
  keywordFound (newSet (map toLowerCase rk)) k = presentIn rk k.
Proof.
  unfold keywordFound, presentIn.
  rewrite (existsb_same_members _ (newSet (map toLowerCase rk)) (map toLowerCase rk))
    by (intros; apply newSet_In).
  apply Bool.eq_iff_eq_true.
  destruct (mem (toLowerCase k) (newSet (map toLowerCase rk))) eqn:E.
  - split; [intros _|reflexivity].
    apply mem_In, newSet_In, in_map_iff in E as [r [Hr Hin]].
    apply existsb_exists. exists r. split; [assumption|].
    rewrite Hr. replace (string_eqb (toLowerCase k) (toLowerCase k)) with true; [reflexivity|].
    symmetry. now apply string_eqb_eq.
  - rewrite !existsb_exists. split.
    + intros [x [Hx Hf]]. apply in_map_iff in Hx as [r [<- Hin]].
      exists r. split; [assumption|].
      rewrite <- orb_assoc. rewrite Hf. apply orb_true_r.
    + intros [r [Hin Hf]]. exists (toLowerCase r). split; [now apply in_map|].
      rewrite <- orb_assoc in Hf. apply orb_true_iff in Hf as [Hf|Hf]; [|assumption].
      exfalso. apply string_eqb_eq in Hf.
      assert (In (toLowerCase k) (newSet (map toLowerCase rk))) as Hm.
      { apply newSet_In. rewrite <- Hf. now apply in_map. }
      apply mem_In in Hm. congruence.
Qed.

Lemma matched_presentIn (rk jk : list jsstring) :
  Comparison.matched (compareKeywords rk jk) = filter (presentIn rk) jk.
Proof.
  rewrite compareKeywords_matched. apply filter_ext.
  intros k. apply keywordFound_presentIn.
Qed.

Lemma matched_le_total (rk jk : list jsstring) :
  (0 <= len (Comparison.matched (compareKeywords rk jk)) <= len jk)%Z.
Proof.
  rewrite compareKeywords_matched.
  pose proof (filter_split_length (keywordFound (newSet (map toLowerCase rk))) jk).
  pose proof (len_nonneg (filter (keywordFound (newSet (map toLowerCase rk))) jk)).
  pose proof (len_nonneg (filter (fun k => negb (keywordFound (newSet (map toLowerCase rk)) k)) jk)).
  lia.
Qed.

End CompareKeywords.

(** ** Numbers *)

#[local] Open Scope Q_scope.

Lemma ratio_bounds (m n : Z) :
  (0 <= m <= n)%Z -> (0 < n)%Z ->
  0 <= inject_Z m / inject_Z n * 100 <= 100.
Proof.
  intros [Hm Hmn] Hn.
  assert (0 < inject_Z n) as Hn' by (now rewrite (Zlt_Qlt 0 n) in Hn).
  assert (0 <= inject_Z m) as Hm' by (now rewrite (Zle_Qle 0 m) in Hm).
  assert (inject_Z m <= inject_Z n) as Hmn' by (now rewrite Zle_Qle in Hmn).
  assert (0 <= inject_Z m / inject_Z n) as H0.
  { apply Qle_shift_div_l; [assumption|]. lra. }
  assert (inject_Z m / inject_Z n <= 1) as H1.
  { apply Qle_shift_div_r; [assumption|]. lra. }
  lra.
Qed.

Lemma min_spec (x y : Q) : (JS.min x y == x /\ x <= y) \/ (JS.min x y == y /\ y <= x).
Proof.
  unfold JS.min. destruct (Qle_bool x y) eqn:E.
  - left. split; [reflexivity | now apply Qle_bool_iff].
  - right. split; [reflexivity|].
    destruct (Qlt_le_dec y x) as [H|H]; [now apply Qlt_le_weak|].
    apply Qle_bool_iff in H. congruence.
Qed.

Lemma max_spec (x y : Q) : (JS.max x y == y /\ x <= y) \/ (JS.max x y == x /\ y <= x).
Proof.
  unfold JS.max. destruct (Qle_bool x y) eqn:E.
  - left. split; [reflexivity | now apply Qle_bool_iff].
  - right. split; [reflexivity|].
    destruct (Qlt_le_dec y x) as [H|H]; [now apply Qlt_le_weak|].
    apply Qle_bool_iff in H. congruence.
Qed.

(** [Math.min(100, s + d)] keeps a score within bounds. *)
Lemma capped_bounds (s d lo : Q) :
  lo <= s <= 100 -> 0 <= d -> lo <= JS.min 100 (s + d) <= 100.
Proof. intros [H1 H2] Hd. destruct (min_spec 100 (s + d)) as [[-> ?]|[-> ?]]; lra. Qed.

Lemma clamp_bounds (x : Q) : 0 <= JS.max 0 (JS.min 100 x) <= 100.
Proof.
  destruct (max_spec 0 (JS.min 100 x)) as [[-> ?]|[-> ?]];
    destruct (min_spec 100 x) as [[E ?]|[E ?]]; rewrite ?E in *; lra.
Qed.

Lemma round_floor (x : Q) : inject_Z (round x) <= x + 0.5 < inject_Z (round x) + 1.
Proof.
  unfold round.
  pose proof (Qfloor_le (x + (1 # 2))) as H1.
  pose proof (Qlt_floor (x + (1 # 2))) as H2.
  rewrite inject_Z_plus in H2. change (inject_Z 1) with 1 in H2. lra.
Qed.

Lemma round_bounds (x : Q) (lo hi : Z) :
  inject_Z lo <= x <= inject_Z hi -> (lo <= round x <= hi)%Z.
Proof.
  intros [H1 H2]. pose proof (round_floor x) as [Ha Hb]. split.
  - assert (inject_Z lo < inject_Z (round x + 1)) as H.
    { rewrite inject_Z_plus. change (inject_Z 1) with 1. lra. }
    rewrite <- Zlt_Qlt in H. lia.
  - assert (inject_Z (round x) < inject_Z (hi + 1)) as H.
    { rewrite inject_Z_plus. change (inject_Z 1) with 1. lra. }
    rewrite <- Zlt_Qlt in H. lia.
Qed.

(** Two numbers at most one half apart round to integers at most one
    apart. *)
Lemma round_close (x y : Q) :
  x - y <= 0.5 -> y - x <= 0.5 -> (Z.abs (round x - round y) <= 1)%Z.
Proof.
  intros H1 H2.
  pose proof (round_floor x) as [Hx1 Hx2]. pose proof (round_floor y) as [Hy1 Hy2].
  assert (inject_Z (round x) < inject_Z (round y + 2)) as Ha.
  { rewrite inject_Z_plus. change (inject_Z 2) with 2. lra. }
  assert (inject_Z (round y) < inject_Z (round x + 2)) as Hb.
  { rewrite inject_Z_plus. change (inject_Z 2) with 2. lra. }
  rewrite <- Zlt_Qlt in Ha, Hb. lia.
Qed.

Lemma round_dist (x : Q) : x - 0.5 <= inject_Z (round x) <= x + 0.5.
Proof. pose proof (round_floor x). lra. Qed.

#[local] Close Scope Q_scope.

(** ** The five sub-scores lie between 0 and 100 *)

Section Bounds.
Context {CM : CaseMap}.
#[local] Open Scope Q_scope.

Lemma matchRate_bounds (rk jk : list jsstring) :
  0 <= Comparison.matchRate (compareKeywords rk jk) <= 100.
Proof.
  rewrite matchRate_unfold.
  destruct (0 <? len jk)%Z eqn:E; [|lra].
  apply Z.ltb_lt in E. apply ratio_bounds; [apply matched_le_total | assumption].
Qed.

Lemma keywordScore_bounds (rk jk : KeywordSet.t) :
  0 <= KeywordScore.score (calculateKeywordScore rk jk) <= 100.
Proof.
  unfold calculateKeywordScore. cbn [KeywordScore.score].
  pose proof (matchRate_bounds (KeywordSet.keywords rk) (KeywordSet.keywords jk)).
  destruct (gt _ 70); [apply capped_bounds; [assumption | lra] | assumption].
Qed.

Lemma sortSkill_fold (names : list jsstring) (js m x : list SkillRecord) :
  fold_left (sortSkill names) js (m, x)
  = (m ++ filter (fun s => mem (toLowerCase (skill s)) names) js,
     x ++ filter (fun s => negb (mem (toLowerCase (skill s)) names)) js).
Proof.
  revert m x; induction js as [|s js IH]; intros m x; simpl.
  - now rewrite !app_nil_r.
  - unfold sortSkill at 2. destruct (mem (toLowerCase (skill s)) names); simpl;
      rewrite IH; now rewrite <- app_assoc.
Qed.

Lemma skillsScore_eq (resumeText jobDescription : jsstring) :
  SkillsScore.score (calculateSkillsScore resumeText jobDescription)
  = if (len (extractSkills (toLowerCase jobDescription)) =? 0)%Z then 75
    else
      let coverage :=
        if (0 <? len (extractSkills (toLowerCase jobDescription)))%Z
        then skillsCoverage resumeText jobDescription else 0 in
      if (5 <? extraSkills resumeText jobDescription)%Z && gt coverage 50
      then JS.min 100 (coverage + 10) else coverage.
Proof.
  unfold calculateSkillsScore.
  destruct (len (extractSkills (toLowerCase jobDescription)) =? 0)%Z; [reflexivity|].
  rewrite sortSkill_fold. reflexivity.
Qed.

Lemma matchedJobSkills_le (resumeText jobDescription : jsstring) :
  (0 <= len (matchedJobSkills resumeText jobDescription)
     <= len (extractSkills (toLowerCase jobDescription)))%Z.
Proof.
  unfold matchedJobSkills.
  set (f := fun s => mem (toLowerCase (skill s)) _).
  pose proof (filter_split_length f (extractSkills (toLowerCase jobDescription))).
  pose proof (len_nonneg (filter f (extractSkills (toLowerCase jobDescription)))).
  pose proof (len_nonneg (filter (fun s => negb (f s)) (extractSkills (toLowerCase jobDescription)))).
  lia.
Qed.

Lemma skillsScore_bounds (resumeText jobDescription : jsstring) :
  0 <= SkillsScore.score (calculateSkillsScore resumeText jobDescription) <= 100.
Proof.
  rewrite skillsScore_eq.
  destruct (len (extractSkills (toLowerCase jobDescription)) =? 0)%Z; [lra|].
  cbv zeta.
  assert (0 <= (if (0 <? len (extractSkills (toLowerCase jobDescription)))%Z
                then skillsCoverage resumeText jobDescription else 0) <= 100) as H.
  { destruct (0 <? len (extractSkills (toLowerCase jobDescription)))%Z eqn:E; [|lra].
    apply Z.ltb_lt in E. apply ratio_bounds; [apply matchedJobSkills_le | assumption]. }
  destruct (_ && _); [apply capped_bounds; [assumption | lra] | assumption].
Qed.

Lemma compareYears_bounds (r j : option Z) : 50 <= fst (compareYears r j) <= 100.
Proof.
  unfold compareYears.
  destruct j as [j|], r as [r|]; cbn [fst]; try lra.
  - destruct (j <=? r)%Z; cbn [fst]; [lra|]. destruct (geq _ _); cbn [fst]; lra.
  - destruct (0 <? r)%Z; cbn [fst]; lra.
Qed.

Lemma experienceScore_bounds (resumeText jobDescription : jsstring) :
  50 <= ExperienceScore.score (calculateExperienceScore resumeText jobDescription) <= 100.
Proof.
  unfold calculateExperienceScore.
  pose proof (compareYears_bounds (extractYearsOfExperience resumeText)
                (extractYearsOfExperience jobDescription)) as H.
  destruct (compareYears _ _) as [score meets]. cbn [fst] in H.
  cbn [ExperienceScore.score].
  assert (50 <= (if (5 <=? len (extractActionVerbs (toLowerCase resumeText)))%Z
                 then JS.min 100 (score + 10) else score) <= 100) as H'.
  { destruct (5 <=? _)%Z; [apply capped_bounds; [assumption | lra] | assumption]. }
  destruct (existsb _ _); [apply capped_bounds; [assumption | lra] | assumption].
Qed.

Lemma educationScore_bounds (resumeText jobDescription : jsstring) :
  40 <= EducationScore.score (calculateEducationScore resumeText jobDescription) <= 100.
Proof.
  unfold calculateEducationScore. cbn [EducationScore.score].
  match goal with |- context [JS.min 100 (?s + 10)] => set (score := s) end.
  assert (40 <= score <= 100) as H.
  { subst score.
    destruct (Education.highestDegree (detectEducation jobDescription)).
    - repeat match goal with |- context [if ?b then _ else _] => destruct b end; lra.
    - destruct (Education.highestDegree (detectEducation resumeText)); lra. }
  destruct (_ && _); [|assumption].
  destruct (existsb _ _); [apply capped_bounds; [assumption | lra] | assumption].
Qed.

Lemma formatScore_bounds (resumeText : jsstring) :
  0 <= FormatScore.score (calculateFormatScore resumeText) <= 100.
Proof. apply clamp_bounds. Qed.

Lemma weighted_bounds (k s e d f : Q) :
  0 <= k <= 100 -> 0 <= s <= 100 -> 0 <= e <= 100 -> 0 <= d <= 100 -> 0 <= f <= 100 ->
  0 <= weighted k s e d f <= 100.
Proof. unfold weighted. intros. lra. Qed.

End Bounds.

(** ** The overall score *)

(** C1, as stated, fails: for the resume "Led a sales team", the job text
    "Sales manager wanted" and two of three job keywords matched, the
    sub-scores are 66.67, 75, 75, 70 and 30; [overallScore] is
    round(64.4167) = 64, and the formula on the reported scores 67, 75, 75,
    70, 30 gives round(64.55) = 65. *)
Lemma overallScore_not_from_rounded_scores :
  ScoreResult.overallScore Sample.result = 64%Z
  /\ formulaOnBreakdown (ScoreResult.breakdown Sample.result) = 65%Z
  /\ ScoreResult.overallScore Sample.result
     <> formulaOnBreakdown (ScoreResult.breakdown Sample.result).
Proof. vm_compute. repeat split; discriminate. Qed.

Section Overall.
Context {CM : CaseMap}.
#[local] Open Scope Q_scope.

(** C1, amended: [overallScore] is the rounding of the weighted sum of the
    five sub-scores as the calculators return them, before any rounding;
    [breakdown] reports each of them rounded, and the formula read on the
    reported scores is within 1 of [overallScore]. *)
Theorem overallScore_weighted_unrounded
    (resumeText jobDescription : jsstring) (resumeKeywords jobKeywords : KeywordSet.t)
    (industry : jsstring) :
  let k := KeywordScore.score (calculateKeywordScore resumeKeywords jobKeywords) in
  let s := SkillsScore.score (calculateSkillsScore resumeText jobDescription) in
  let e := ExperienceScore.score (calculateExperienceScore resumeText jobDescription) in
  let d := EducationScore.score (calculateEducationScore resumeText jobDescription) in
  let f := FormatScore.score (calculateFormatScore resumeText) in
  let result := calculateScore resumeText jobDescription resumeKeywords jobKeywords industry in
  let b := ScoreResult.breakdown result in
  ScoreResult.overallScore result
    = round (k * 0.40 + s * 0.20 + e * 0.15 + d * 0.10 + f * 0.15)
  /\ Part.score (Breakdown.keywordMatch b) = round k
  /\ Part.score (Breakdown.skillsAlignment b) = round s
  /\ Part.score (Breakdown.experienceRelevance b) = round e
  /\ Part.score (Breakdown.educationMatch b) = round d
  /\ Part.score (Breakdown.formatReadability b) = round f
  /\ (Z.abs (ScoreResult.overallScore result - formulaOnBreakdown b) <= 1)%Z.
Proof.
  intros k s e d f result b.
  repeat (split; [reflexivity|]).
  subst result b. unfold calculateScore, formulaOnBreakdown.
  cbn [ScoreResult.overallScore ScoreResult.breakdown Breakdown.keywordMatch
       Breakdown.skillsAlignment Breakdown.experienceRelevance Breakdown.educationMatch
       Breakdown.formatReadability part Part.score].
  fold k s e d f.
  pose proof (round_dist k). pose proof (round_dist s). pose proof (round_dist e).
  pose proof (round_dist d). pose proof (round_dist f).
  apply round_close; unfold weighted; lra.
Qed.

(** C2: whatever the two texts and the two keyword sets, [overallScore] is
    an integer between 0 and 100. *)
Theorem overallScore_range
    (resumeText jobDescription : jsstring) (resumeKeywords jobKeywords : KeywordSet.t)
    (industry : jsstring) :
  (0 <= ScoreResult.overallScore
          (calculateScore resumeText jobDescription resumeKeywords jobKeywords industry)
     <= 100)%Z.
Proof.
  unfold calculateScore. cbn [ScoreResult.overallScore].
  apply round_bounds. change (inject_Z 0) with 0. change (inject_Z 100) with 100.
  pose proof (experienceScore_bounds resumeText jobDescription).
  pose proof (educationScore_bounds resumeText jobDescription).
  apply weighted_bounds;
    [apply keywordScore_bounds | apply skillsScore_bounds | lra | lra
    | apply formatScore_bounds].
Qed.

(** C9: with the two texts and the two keyword sets fixed, any two values of
    the [industry] argument give the same result, field for field:
    [calculateScore] never reads it. *)
Theorem industry_has_no_influence
    (resumeText jobDescription : jsstring) (resumeKeywords jobKeywords : KeywordSet.t)
    (industry1 industry2 : jsstring) :
  calculateScore resumeText jobDescription resumeKeywords jobKeywords industry1
  = calculateScore resumeText jobDescription resumeKeywords jobKeywords industry2.
Proof. reflexivity. Qed.

End Overall.

Example overallScore_empty_texts :
  ScoreResult.overallScore
    (calculateScore (CM := asciiCaseMap) [] [] (keywordsOnly []) (keywordsOnly []) [])
  = 37%Z.
Proof. vm_compute. reflexivity. Qed.

(** ** The keyword comparison *)

Section Comparator.
Context {CM : CaseMap}.

(** C6: [matchRate] is the number of matched job keywords over the number of
    job keywords, times 100; with no job keyword it is 0, the quotient being
    formed only when the list is not empty.  It lies between 0 and 100. *)
Theorem compareKeywords_matchRate (resumeKeywords jobKeywords : list jsstring) :
  Comparison.matchRate (compareKeywords resumeKeywords jobKeywords)
  = match jobKeywords with
    | [] => 0%Q
    | _ :: _ =>
        (inject_Z (matchedJobKeywords resumeKeywords jobKeywords)
         / inject_Z (len jobKeywords) * 100)%Q
    end
  /\ Comparison.matchedCount (compareKeywords resumeKeywords jobKeywords)
     = matchedJobKeywords resumeKeywords jobKeywords
  /\ Comparison.matchRate (compareKeywords resumeKeywords []) = 0%Q
  /\ (0 <= Comparison.matchRate (compareKeywords resumeKeywords jobKeywords) <= 100)%Q.
Proof.
  split; [|split; [|split]].
  - rewrite matchRate_unfold, matched_presentIn.
    destruct jobKeywords; reflexivity.
  - destruct (compareKeywords_counts resumeKeywords jobKeywords) as [-> _].
    now rewrite matched_presentIn.
  - reflexivity.
  - apply matchRate_bounds.
Qed.

Lemma filter_none (l : list jsstring) : filter (keywordFound []) l = [].
Proof. induction l as [|k l IH]; [reflexivity | exact IH]. Qed.

Lemma filter_all (l : list jsstring) :
  filter (fun k => negb (keywordFound [] k)) l = l.
Proof. induction l as [|k l IH]; [reflexivity | cbn; now f_equal]. Qed.

(** C7: [matched] and [missing] split the job keywords: together they are
    a rearrangement of the list, every job keyword is in exactly one of them,
    no keyword of one equals a keyword of the other even with case left aside,
    the two counts add up to [totalJobKeywords]; and with no resume keyword,
    [matched] is empty and [missing] is the list of job keywords. *)
Theorem compareKeywords_partition (resumeKeywords jobKeywords : list jsstring) :
  let c := compareKeywords resumeKeywords jobKeywords in
  Permutation (Comparison.matched c ++ Comparison.missing c) jobKeywords
  /\ (forall k, In k jobKeywords ->
        (In k (Comparison.matched c) /\ ~ In k (Comparison.missing c))
        \/ (In k (Comparison.missing c) /\ ~ In k (Comparison.matched c)))
  /\ (forall a b, In a (Comparison.matched c) -> In b (Comparison.missing c) ->
        toLowerCase a <> toLowerCase b)
  /\ (Comparison.matchedCount c + Comparison.missingCount c
      = Comparison.totalJobKeywords c)%Z
  /\ Comparison.totalJobKeywords c = len jobKeywords
  /\ Comparison.matched (compareKeywords [] jobKeywords) = []
  /\ Comparison.missing (compareKeywords [] jobKeywords) = jobKeywords.
Proof.
  intros c. subst c.
  destruct (compareKeywords_counts resumeKeywords jobKeywords) as [Hm [Hx Ht]].
  rewrite Hm, Hx, Ht.
  rewrite compareKeywords_matched, compareKeywords_missing.
  set (found := keywordFound (newSet (map toLowerCase resumeKeywords))).
  repeat split.
  - apply filter_split_perm.
  - intros k Hk. destruct (found k) eqn:E.
    + left. split; [now apply filter_In|].
      intros H. apply filter_In in H as [_ H]. rewrite E in H. discriminate.
    + right. split; [apply filter_In; split; [assumption | now rewrite E]|].
      intros H. apply filter_In in H as [_ H]. congruence.
  - intros a b Ha Hb Hab.
    apply filter_In in Ha as [_ Ha]. apply filter_In in Hb as [_ Hb].
    unfold found, keywordFound in Ha, Hb. rewrite Hab in Ha. rewrite Ha in Hb. discriminate.
  - apply filter_split_length.
  - rewrite compareKeywords_matched. apply filter_none.
  - rewrite compareKeywords_missing. apply filter_all.
Qed.

End Comparator.

(** The partition on a concrete pair of lists: "SQL" is matched through the
    resume's "sql", "manage" through "management", "Docker" is missing. *)
Lemma compareKeywords_partition_witness :
  let c := compareKeywords (CM := asciiCaseMap)
             [str "sql"; str "management"] [str "SQL"; str "Docker"; str "manage"] in
  (In (str "Docker") (Comparison.matched c) /\ ~ In (str "Docker") (Comparison.missing c))
  \/ (In (str "Docker") (Comparison.missing c) /\ ~ In (str "Docker") (Comparison.matched c)).
Proof.
  intros c.
  apply (proj1 (proj2 (compareKeywords_partition (CM := asciiCaseMap)
           [str "sql"; str "management"] [str "SQL"; str "Docker"; str "manage"]))).
  simpl. right. left. reflexivity.
Defined.

Example compareKeywords_sample :
  let c := compareKeywords (CM := asciiCaseMap)
             [str "sql"; str "management"] [str "SQL"; str "Docker"; str "manage"] in
  Comparison.matched c = [str "SQL"; str "manage"]
  /\ Comparison.missing c = [str "Docker"]
  /\ Comparison.matchRate c = (2 / 3 * 100)%Q.
Proof. vm_compute. repeat split. Qed.

(** ** The word count *)

Lemma splitFrom_nonempty (r : regex) (s : jsstring) :
  forall prev skip cur fresh, splitFrom r prev s skip cur fresh <> [].
Proof.
  induction s as [|c t IH]; intros prev skip cur fresh; simpl; [discriminate|].
  destruct skip; [|apply IH].
  destruct (matchAt r (Cursor prev (c :: t))) as [[[|n] caps]|];
    [destruct fresh; [apply IH | discriminate] | discriminate | apply IH].
Qed.

Lemma wordCount_positive (text : jsstring) : (1 <= len (split whitespaceRun text))%Z.
Proof.
  destruct text as [|c t]; [vm_compute; discriminate|].
  unfold split.
  pose proof (@splitFrom_nonempty whitespaceRun (c :: t) None 0%nat [] true) as H.
  destruct (splitFrom whitespaceRun None (c :: t) 0 [] true); [congruence|].
  unfold len. simpl length. lia.
Qed.

(** C10: the word count that [metrics.resumeLength.words], the length rule
    of the format score and the page estimate use is at least 1 for every
    text; the empty text counts 1 word, is not of optimal length, falls under
    the branch for fewer than 300 words (+10, "Resume may be too short") and
    is estimated at 1 page. *)
Theorem wordCount_at_least_one :
  (forall (CM : CaseMap) resumeText jobDescription resumeKeywords jobKeywords industry,
     (1 <= ResumeLength.words (Metrics.resumeLength (ScoreResult.metrics
             (calculateScore resumeText jobDescription resumeKeywords jobKeywords
                industry))))%Z)
  /\ (forall text, (1 <= wordCount text)%Z)
  /\ (forall text, (1 <= estimatePages text)%Z)
  /\ (forall (CM : CaseMap) jobDescription resumeKeywords jobKeywords industry,
        Metrics.resumeLength (ScoreResult.metrics
          (calculateScore [] jobDescription resumeKeywords jobKeywords industry))
        = {| ResumeLength.words := 1; ResumeLength.optimal := false;
             ResumeLength.pages := 1 |})
  /\ (forall st, checkLength [] st
                 = pushIssue (str "Resume may be too short") (addScore 10 st)).
Proof.
  repeat split.
  - intros. apply wordCount_positive.
  - intros. apply wordCount_positive.
  - intros text. unfold estimatePages, ceil.
    pose proof (wordCount_positive text) as H.
    set (n := len (split whitespaceRun text)) in *.
    assert (0 < inject_Z n / 500)%Q as Hpos.
    { apply Qlt_shift_div_l; [reflexivity|]. rewrite Qmult_0_l.
      change 0%Q with (inject_Z 0). rewrite <- Zlt_Qlt. lia. }
    pose proof (Qle_ceiling (inject_Z n / 500)) as Hc.
    assert (inject_Z 0 < inject_Z (Qceiling (inject_Z n / 500)))%Q as Hlt
      by (change (inject_Z 0) with 0%Q; lra).
    rewrite <- Zlt_Qlt in Hlt. lia.
Qed.

(** ** Matching: counting and testing *)





Lemma flat_map_optional_length {T U} (p : T -> bool) (g : T -> U) (l : list T) :
  length (flat_map (fun x => if p x then [g x] else []) l) = length (filter p l).
Proof.
  induction l as [|x l IH]; simpl; [reflexivity|].
  destruct (p x); simpl; now rewrite IH.
Qed.

(** ** The skills score *)

Example skills_sample_counts :
  map skill (extractSkills (toLowerCase (CaseMap := asciiCaseMap) SkillsSample.jobDescription))
    = map str ["python"; "java"; "sql"]%string
  /\ len (extractSkills (toLowerCase (CaseMap := asciiCaseMap) SkillsSample.resumeText)) = 7%Z
  /\ extraSkills (CM := asciiCaseMap) SkillsSample.resumeText SkillsSample.jobDescription = 5%Z
  /\ (skillsCoverage (CM := asciiCaseMap) SkillsSample.resumeText SkillsSample.jobDescription
      == 200 # 3)%Q.
Proof. vm_compute. repeat split. Qed.

(** C4, as stated, fails: a resume with exactly 5 skills beyond the 2 of 3
    job skills it matches (coverage 66.67) gets no bonus: the score is 66.67,
    not 76.67. *)
Lemma skills_bonus_not_at_five_extra :
  ~ (SkillsScore.score
       (calculateSkillsScore (CM := asciiCaseMap) SkillsSample.resumeText
          SkillsSample.jobDescription)
     == claimedSkillsScore (CM := asciiCaseMap) SkillsSample.resumeText
          SkillsSample.jobDescription)%Q.
Proof. vm_compute. discriminate. Qed.

Section Skills.
Context {CM : CaseMap}.

(** C4, amended: when the job text yields a skill, the skills score is the
    coverage (matched job skills over job skills, times 100), plus 10 and
    capped at 100 exactly when the resume has more than 5 skills, that is 6 or
    more, beyond the matched ones and the coverage exceeds 50; it is 75 when
    the job text yields no skill. *)
Theorem skills_bonus_rule (resumeText jobDescription : jsstring) :
  SkillsScore.score (calculateSkillsScore resumeText jobDescription)
  = match extractSkills (toLowerCase jobDescription) with
    | [] => 75%Q
    | _ :: _ =>
        let coverage := skillsCoverage resumeText jobDescription in
        if (6 <=? extraSkills resumeText jobDescription)%Z && gt coverage 50
        then JS.min 100 (coverage + 10)%Q else coverage
    end.
Proof.
  rewrite skillsScore_eq.
  destruct (extractSkills (toLowerCase jobDescription)) as [|s l] eqn:E; [reflexivity|].
  assert (0 < len (s :: l))%Z as Hpos by (unfold len; simpl length; lia).
  destruct (Z.eqb_spec (len (s :: l)) 0) as [H0|_]; [lia|].
  destruct (Z.ltb_spec 0 (len (s :: l))) as [_|H0]; [|lia].
  cbv zeta.
  replace (5 <? extraSkills resumeText jobDescription)%Z
    with (6 <=? extraSkills resumeText jobDescription)%Z; [reflexivity|].
  apply Bool.eq_iff_eq_true. rewrite Z.leb_le, Z.ltb_lt. lia.
Qed.

End Skills.

(** ** extractKeywords *)






Section Keywords.
Context {CM : CaseMap} {nlp : NLP}.


End Keywords.



Example extractKeywords_sample :
  match extractKeywords (CM := asciiCaseMap) (nlp := silentNLP)
          (str "Python and SQL on a data team") with
  | Returns k =>
      KeywordSet.keywords k = map str ["python"; "sql"; "python and"; "sql on"]%string
      /\ KeywordSet.phrases k = map str ["python and"; "sql on"]%string
  | Throws => False
  end.
Proof. vm_compute. repeat split. Qed.

(** ** The bullet points of the format score *)

Lemma run_star_cls_step {T} (f : char -> bool) (prev : option char) (c : char)
    (t : jsstring) (caps : list jsstring) (k : cursor -> list jsstring -> option T) :
  run (Star (Cls f)) (Cursor prev (c :: t)) caps k
  = if f c
    then match run (Star (Cls f)) (Cursor (Some c) t) caps k with
         | Some a => Some a
         | None => k (Cursor prev (c :: t)) caps
         end
    else k (Cursor prev (c :: t)) caps.
Proof.
  cbn [run rest length]. destruct (f c); [|reflexivity].

  replace (length t <? S (length t))%nat with true by (symmetry; apply Nat.ltb_lt; lia).
  reflexivity.
Qed.

(** A greedy run of one class, when what follows cannot start with a member
    of the class: the run is taken whole. *)
Lemma run_star_cls {T} (f : char -> bool) (k : cursor -> list jsstring -> option T)
    (caps : list jsstring) :
  (forall prev c t, f c = true -> k (Cursor prev (c :: t)) caps = None) ->
  forall s prev,
    run (Star (Cls f)) (Cursor prev s) caps k = k (afterRun f prev s) caps.
Proof.
  intros Hk. induction s as [|c t IH]; intros prev.
  - reflexivity.
  - rewrite run_star_cls_step. cbn [afterRun]. destruct (f c) eqn:E; [|reflexivity].
    rewrite IH. destruct (k (afterRun f (Some c) t) caps) eqn:E'; [reflexivity|].
    now apply Hk.
Qed.

Lemma bullet_not_space (c : char) : isBullet c = true -> isSpace c = false.
Proof.
  unfold isBullet, oneOf. cbn [existsb]. rewrite !orb_true_iff, !N.eqb_eq.
  intros [H|[H|[H|H]]]; try discriminate; subst; reflexivity.
Qed.

Lemma afterRun_suffix (f : char -> bool) (s : jsstring) (prev : option char) :
  exists w, s = w ++ rest (afterRun f prev s) /\ forallb f w = true
            /\ match rest (afterRun f prev s) with
               | c :: _ => f c = false
               | [] => True
               end.
Proof.
  revert prev; induction s as [|c t IH]; intros prev; cbn [afterRun].
  - exists []. repeat split.
  - destruct (f c) eqn:E.
    + destruct (IH (Some c)) as [w [H1 [H2 H3]]]. exists (c :: w). cbn.
      rewrite E, H2. repeat split; [now f_equal | assumption].
    + exists []. cbn. repeat split. assumption.
Qed.

Lemma run_Cat {T} (r1 r2 : regex) (p : cursor) (caps : list jsstring)
    (k : cursor -> list jsstring -> option T) :
  run (Cat r1 r2) p caps k = run r1 p caps (fun p' caps' => run r2 p' caps' k).
Proof. reflexivity. Qed.

Lemma run_Cls {T} (f : char -> bool) (p : cursor) (caps : list jsstring)
    (k : cursor -> list jsstring -> option T) :
  run (Cls f) p caps k
  = match rest p with
    | c :: t => if f c then k (Cursor (Some c) t) caps else None
    | [] => None
    end.
Proof. reflexivity. Qed.

(** What [bulletPattern] does at one position. *)
Lemma matchAt_bullet (prev : option char) (s : jsstring) :
  matchAt bulletPattern (Cursor prev s)
  = match s with
    | c :: t =>
        if char_eqb 10%N c then
          match rest (afterRun isSpace (Some c) t) with
          | b :: t' => if isBullet b then Some ((length s - length t')%nat, []) else None
          | [] => None
          end
        else None
    | [] => None
    end.
Proof.
  destruct s as [|c t]; [reflexivity|].
  unfold matchAt, bulletPattern. cbn [seq]. unfold chr, ws.
  rewrite run_Cat, run_Cls. cbn [rest].
  destruct (char_eqb 10%N c); [|reflexivity].
  rewrite run_Cat, run_star_cls.
  - rewrite run_Cls.
    destruct (afterRun isSpace (Some c) t) as [prev' [|b t']]; cbn [rest]; reflexivity.
  - intros prev' c' t' H. rewrite run_Cls. cbn [rest].
    destruct (oneOf [45; 8226; 42]%N c') eqn:E; [|reflexivity].
    apply bullet_not_space in E. congruence.
Qed.

Lemma not_space_not_newline (c : char) : isSpace c = false -> char_eqb 10%N c = false.
Proof.
  intros H. unfold char_eqb. destruct (N.eqb_spec 10%N c) as [<-|]; [discriminate | reflexivity].
Qed.

Lemma openingBullets_run_bullet (w : jsstring) (b : char) (t : jsstring) :
  forallb isSpace w = true -> isBullet b = true ->
  openingBullets true (w ++ b :: t) = S (openingBullets false t).
Proof.
  intros Hw Hb. induction w as [|c w IH]; cbn [app openingBullets].
  - pose proof (bullet_not_space b Hb) as Hs.
    now rewrite (not_space_not_newline b Hs), Hs, Hb.
  - cbn [forallb] in Hw. apply andb_prop in Hw as [Hc Hw]. rewrite Hc.
    destruct (char_eqb 10%N c); now apply IH.
Qed.

Lemma openingBullets_run_other (w rest : jsstring) (armed : bool) :
  forallb isSpace w = true ->
  match rest with c :: _ => isSpace c = false /\ isBullet c = false | [] => True end ->
  openingBullets armed (w ++ rest) = openingBullets false rest.
Proof.
  intros Hw Hr. revert armed. induction w as [|c w IH]; intros armed; cbn [app].
  - destruct rest as [|x r]; [reflexivity|]. destruct Hr as [Hs Hb].
    cbn [openingBullets]. now rewrite (not_space_not_newline x Hs), Hs, Hb.
  - cbn [forallb] in Hw. apply andb_prop in Hw as [Hc Hw]. cbn [openingBullets].
    rewrite Hc. destruct (char_eqb 10%N c); now apply IH.
Qed.

Lemma skipn_past {T} (w : list T) (b : T) (t : list T) :
  skipn (S (length (w ++ b :: t)) - length t - 1) (w ++ b :: t) = t.
Proof.
  replace (S (length (w ++ b :: t)) - length t - 1)%nat with (length (w ++ [b])).
  - replace (w ++ b :: t) with ((w ++ [b]) ++ t) by (now rewrite <- app_assoc).
    rewrite skipn_app, skipn_all, Nat.sub_diag. reflexivity.
  - rewrite !length_app. cbn [length]. lia.
Qed.

(** The matches of [bulletPattern] are the bullets that open a line after a
    line break. *)
Lemma scan_bullets (s : jsstring) :
  forall prev skip,
    length (scan bulletPattern prev s skip) = openingBullets false (skipn skip s).
Proof.
  induction s as [|c t IH]; intros prev skip.
  - destruct skip; reflexivity.
  - destruct skip as [|n]; [|apply IH].
    cbn [scan skipn]. rewrite matchAt_bullet. cbn [openingBullets].
    destruct (char_eqb 10%N c) eqn:Ec.
    + destruct (afterRun_suffix isSpace t (Some c)) as [w [Ht [Hw Hr]]].
      destruct (rest (afterRun isSpace (Some c) t)) as [|b t'] eqn:Er.
      * rewrite IH. cbn [skipn]. rewrite Ht.
        now rewrite !(openingBullets_run_other w [] _ Hw I).
      * destruct (isBullet b) eqn:Eb.
        -- cbn [length]. rewrite IH. rewrite Ht. rewrite skipn_past.
           now rewrite openingBullets_run_bullet.
        -- rewrite IH. cbn [skipn]. rewrite Ht.
           now rewrite !(openingBullets_run_other w (b :: t') _ Hw (conj Hr Eb)).
    + rewrite IH. cbn [skipn].
      destruct (isSpace c); [reflexivity|]. destruct (isBullet c); reflexivity.
Qed.

Lemma lines_nonempty (s : jsstring) : lines s <> [].
Proof.
  destruct s as [|c t]; cbn [lines]; [discriminate|].
  destruct (char_eqb 10%N c); [discriminate|]. destruct (lines t); discriminate.
Qed.

Lemma lines_bullets (s : jsstring) :
  length (filter startsWithBullet (lines s)) = openingBullets true s
  /\ length (filter startsWithBullet (tl (lines s))) = openingBullets false s.
Proof.
  induction s as [|c t [IH1 IH2]]; [split; reflexivity|].
  cbn [lines openingBullets]. destruct (char_eqb 10%N c) eqn:Ec.
  - cbn [tl filter]. unfold startsWithBullet at 1. cbn [trimStart]. now split.
  - pose proof (lines_nonempty t) as Hne.
    destruct (lines t) as [|l ls]; [congruence|]. cbn [tl filter] in *.
    unfold startsWithBullet at 1. cbn [trimStart].
    destruct (isSpace c) eqn:Es.
    + split; [|assumption]. rewrite <- IH1. fold (startsWithBullet l).
      destruct (startsWithBullet l); reflexivity.
    + split; [|destruct (isBullet c); assumption].
      destruct (isBullet c); cbn [length]; now rewrite IH2.
Qed.

Lemma bulletPointCount_lines (text : jsstring) :
  bulletPointCount text = bulletLinesAfterBreak text.
Proof.
  unfold bulletPointCount, countMatches, matches, bulletLinesAfterBreak, len.
  rewrite scan_bullets. cbn [skipn]. now rewrite (proj2 (lines_bullets text)).
Qed.

Example fiveBullets_lines :
  lines fiveBullets = map str ["- a"; "- b"; "- c"; "- d"; "- e"]%string
  /\ bulletLines fiveBullets = 5%Z
  /\ bulletPointCount fiveBullets = 4%Z
  /\ map whole (matches bulletPattern fiveBullets)
     = [[10; 45]; [10; 45]; [10; 45]; [10; 45]]%N.
Proof. vm_compute. repeat split. Qed.

(** C5, as stated, fails: a text of five bullet lines whose first line opens
    the text has four matches of the pattern, and gets +5, not +15. *)
Lemma first_line_bullet_not_counted :
  ~ (fscore (checkBullets fiveBullets noPoints)
     == fscore noPoints + claimedBulletPoints fiveBullets)%Q.
Proof. vm_compute. discriminate. Qed.

Lemma checkSection_fold (text : jsstring) (l : list (string * regex)) :
  forall n st,
    fst (fold_left (checkSection text) l (n, st))
      = (n + len (filter (fun section => test (snd section) text) l))%Z
    /\ fscore (snd (fold_left (checkSection text) l (n, st))) = fscore st.
Proof.
  induction l as [|x l IH]; intros n st; cbn [fold_left filter].
  - unfold len. cbn. split; [lia | reflexivity].
  - unfold checkSection at 2 4. destruct (test (snd x) text).
    + destruct (IH (n + 1)%Z (pushStrength (capitalize (str (fst x)) ++ str " section present") st))
        as [H1 H2].
      rewrite H1, H2. split; [|reflexivity].
      unfold len. cbn [length]. lia.
    + destruct (IH n (pushIssue (str "Missing " ++ str (fst x) ++ str " section") st))
        as [H1 H2].
      rewrite H1, H2. split; reflexivity.
Qed.

Lemma checkSections_score (text : jsstring) (st : FormatState) :
  fscore (checkSections text st) = (fscore st + sectionPoints text)%Q.
Proof.
  unfold checkSections.
  destruct (checkSection_fold text sectionPatterns 0 st) as [H1 H2].
  destruct (fold_left (checkSection text) sectionPatterns (0%Z, st)) as [n st'].
  cbn [fst snd] in H1, H2. cbn [addScore fscore]. rewrite H1, H2. reflexivity.
Qed.

Lemma sectionPoints_bounds (text : jsstring) : (0 <= sectionPoints text <= 40)%Q.
Proof.
  unfold sectionPoints.
  assert (0 <= presentSections text <= 4)%Z as H.
  { unfold presentSections.
    pose proof (filter_split_length (fun section => test (snd section) text) sectionPatterns) as H.
    pose proof (len_nonneg (filter (fun section => test (snd section) text) sectionPatterns)).
    pose proof (len_nonneg (filter (fun section => negb (test (snd section) text)) sectionPatterns)).
    change (len sectionPatterns) with 4%Z in H. lia. }
  pose proof (ratio_bounds H eq_refl) as Hr. change (inject_Z 4) with 4%Q in Hr. lra.
Qed.

Lemma checkLength_score (text : jsstring) (st : FormatState) :
  fscore (checkLength text st) = (fscore st + lengthPoints text)%Q.
Proof.
  unfold checkLength, lengthPoints.
  destruct (_ && _); [reflexivity|]. destruct (wordCount text <? 300)%Z; reflexivity.
Qed.

Lemma checkBullets_score (text : jsstring) (st : FormatState) :
  fscore (checkBullets text st) = (fscore st + bulletPoints text)%Q.
Proof.
  unfold checkBullets, bulletPoints. rewrite bulletPointCount_lines.
  destruct (5 <=? bulletLinesAfterBreak text)%Z; reflexivity.
Qed.

Lemma checkNumbers_score (text : jsstring) (st : FormatState) :
  fscore (checkNumbers text st) = (fscore st + numberPoints text)%Q.
Proof. unfold checkNumbers, numberPoints. destruct (5 <=? numberCount text)%Z; reflexivity. Qed.

Lemma checkSpecialChars_score (text : jsstring) (st : FormatState) :
  fscore (checkSpecialChars text st) = (fscore st + specialPoints text)%Q.
Proof. unfold checkSpecialChars, specialPoints. destruct (test specialChars text); reflexivity. Qed.

(** C5, amended: the bullet rule adds +15 exactly when at least 5 lines
    after a line break start with '-', '•' or '*' (after optional whitespace),
    and +5 otherwise; a bullet line that opens the text, with no line break
    before it, does not count.  The format score is the sum of the points of
    its five rules. *)
Theorem bullet_points_rule (text : jsstring) :
  bulletPointCount text = bulletLinesAfterBreak text
  /\ (forall st, fscore (checkBullets text st)
                 = (fscore st + (if (5 <=? bulletLinesAfterBreak text)%Z then 15 else 5))%Q)
  /\ (FormatScore.score (calculateFormatScore text)
      == sectionPoints text + lengthPoints text + bulletPoints text
         + numberPoints text + specialPoints text)%Q.
Proof.
  split; [apply bulletPointCount_lines|]. split; [intros st; apply checkBullets_score|].
  unfold calculateFormatScore. cbn [FormatScore.score]. unfold formatChecks.
  rewrite checkSpecialChars_score, checkNumbers_score, checkBullets_score,
    checkLength_score, checkSections_score. cbn [fscore].
  pose proof (sectionPoints_bounds text).
  assert (10 <= lengthPoints text <= 20)%Q
    by (unfold lengthPoints; destruct (_ && _); [lra|]; destruct (_ <? _)%Z; lra).
  assert (5 <= bulletPoints text <= 15)%Q
    by (unfold bulletPoints; destruct (_ <=? _)%Z; lra).
  assert (5 <= numberPoints text <= 15)%Q
    by (unfold numberPoints; destruct (_ <=? _)%Z; lra).
  assert (-10 <= specialPoints text <= 10)%Q
    by (unfold specialPoints; destruct (test _ _); lra).
  match goal with |- (JS.max 0 (JS.min 100 ?x) == _)%Q => set (total := x) in * end.
  assert (total == sectionPoints text + lengthPoints text + bulletPoints text
                   + numberPoints text + specialPoints text)%Q as Ht
    by (subst total; lra).
  destruct (max_spec 0 (JS.min 100 total)) as [[-> ?]|[-> ?]];
    destruct (min_spec 100 total) as [[E ?]|[E ?]]; rewrite ?E in *; lra.
Qed.

(** ** The experience score *)





Lemma maxOver_candidates (pattern : regex) (text : jsstring) (m : Z) :
  maxOver pattern text m
  = fold_left Z.max (map (fun x => parseInt (group1 x)) (matches pattern text)) m.
Proof.
  unfold maxOver. generalize (matches pattern text). intros l. revert m.
  induction l as [|x l IH]; intros m; [reflexivity|]. cbn [fold_left map].
  rewrite IH. f_equal.
  destruct (Z.ltb_spec m (parseInt (group1 x))); lia.
Qed.

Lemma fold_max_flat_map (text : jsstring) (patterns : list regex) (m : Z) :
  fold_left (fun maxYears pattern => maxOver pattern text maxYears) patterns m
  = fold_left Z.max
      (flat_map (fun p => map (fun x => parseInt (group1 x)) (matches p text)) patterns) m.
Proof.
  revert m. induction patterns as [|p l IH]; intros m; [reflexivity|].
  cbn [fold_left flat_map]. rewrite fold_left_app, IH. now rewrite maxOver_candidates.
Qed.



(** *** The three patterns on digits followed by " years experience" *)




















Section Experience.
Context {CM : CaseMap}.


End Experience.


Example experience_scenario :
  ExperienceScore.score (calculateExperienceScore (CM := asciiCaseMap)
    (str "Experienced Python developer with 5 years experience. Led team of 5.")
    (str "Looking for Python developer with 3+ years experience."))
  = 100%Q.
Proof. vm_compute. reflexivity. Qed.

(* ================================================================== *)
(** * Further properties of the two services *)

(** ** Sorting *)

Section StableSort.
Variable T : Type.
Variable key : T -> Z.
Variable after : T -> T -> bool.
Hypothesis after_key : forall a b, after a b = (key b <? key a)%Z.

Lemma insertSorted_perm (x : T) (l : list T) :
  Permutation (insertSorted after x l) (x :: l).
Proof.
  induction l as [|y l IH]; simpl; [constructor; constructor|].
  destruct (after x y); [|reflexivity].
  transitivity (y :: x :: l); [now constructor | apply perm_swap].
Qed.

Lemma stableSort_perm (l : list T) : Permutation (stableSort after l) l.
Proof.
  unfold stableSort. induction l as [|x l IH]; simpl; [constructor|].
  rewrite insertSorted_perm. now constructor.
Qed.

Lemma insertSorted_sorted (x : T) (l : list T) :
  StronglySorted (fun a b => (key a <= key b)%Z) l ->
  StronglySorted (fun a b => (key a <= key b)%Z) (insertSorted after x l).
Proof.
  induction l as [|y l IH]; intros H; simpl.
  - constructor; constructor.
  - inversion H as [|? ? Hl Hy]; subst. rewrite after_key.
    destruct (Z.ltb_spec (key y) (key x)) as [Hlt|Hge].
    + constructor; [now apply IH|].
      apply Forall_forall. intros z Hz.
      apply (Permutation_in _ (insertSorted_perm x l)) in Hz.
      destruct Hz as [<-|Hz]; [lia|].
      rewrite Forall_forall in Hy. now apply Hy.
    + constructor; [assumption|]. constructor; [assumption|].
      apply Forall_forall. intros z Hz. rewrite Forall_forall in Hy.
      specialize (Hy z Hz). lia.
Qed.

Lemma stableSort_sorted (l : list T) :
  StronglySorted (fun a b => (key a <= key b)%Z) (stableSort after l).
Proof.
  unfold stableSort. induction l as [|x l IH]; simpl; [constructor|].
  now apply insertSorted_sorted.
Qed.

Lemma insertSorted_stable (r : Z) (x : T) (l : list T) :
  filter (fun y => (key y =? r)%Z) (insertSorted after x l)
  = filter (fun y => (key y =? r)%Z) (x :: l).
Proof.
  induction l as [|y l IH]; [reflexivity|].
  cbn [insertSorted]. rewrite after_key.
  destruct (Z.ltb_spec (key y) (key x)) as [Hlt|Hge]; [|reflexivity].
  cbn [filter] in *. rewrite IH.
  destruct (Z.eqb_spec (key x) r), (Z.eqb_spec (key y) r); try reflexivity. lia.
Qed.

Lemma stableSort_stable (r : Z) (l : list T) :
  filter (fun y => (key y =? r)%Z) (stableSort after l)
  = filter (fun y => (key y =? r)%Z) l.
Proof.
  unfold stableSort. induction l as [|x l IH]; [reflexivity|].
  cbn [fold_right]. rewrite insertSorted_stable. cbn [filter]. now rewrite IH.
Qed.

End StableSort.

(** ** getScoreGrade *)

(** X1: a higher score never gets a worse grade. *)
Theorem getScoreGrade_monotone (s1 s2 : Z) :
  (s1 <= s2)%Z -> (gradeRank (getScoreGrade s1) <= gradeRank (getScoreGrade s2))%Z.
Proof.
  intros H. unfold getScoreGrade.
  repeat match goal with
         | |- context [(?a <=? ?b)%Z] => destruct (Z.leb_spec a b)
         end; cbn; lia.
Qed.

Lemma getScoreGrade_monotone_witness :
  (gradeRank (getScoreGrade 59) <= gradeRank (getScoreGrade 60))%Z.
Proof. apply getScoreGrade_monotone. lia. Defined.

(** ** generateRecommendations *)

(** X2: the recommendations come sorted by priority (high, then medium, then
    low); the sort only rearranges what the rules pushed and keeps the
    recommendations of one priority in the order the rules pushed them. *)
Theorem generateRecommendations_sorted
    (scoreResults : ScoreResult.t) (resumeText jobDescription : jsstring) :
  let result := generateRecommendations scoreResults resumeText jobDescription in
  StronglySorted
    (fun a b => (priorityOrder (Recommendation.priority a)
                 <= priorityOrder (Recommendation.priority b))%Z) result
  /\ Permutation result (pushedRecommendations scoreResults)
  /\ (forall rank,
        filter (fun x => (priorityOrder (Recommendation.priority x) =? rank)%Z) result
        = filter (fun x => (priorityOrder (Recommendation.priority x) =? rank)%Z)
            (pushedRecommendations scoreResults)).
Proof.
  intros result. subst result. unfold generateRecommendations.
  split; [|split].
  - apply (stableSort_sorted (fun x => priorityOrder (Recommendation.priority x))).
    intros a b. reflexivity.
  - apply stableSort_perm.
  - intros rank.
    apply (stableSort_stable (fun x => priorityOrder (Recommendation.priority x))).
    intros a b. reflexivity.
Qed.

Lemma hasCategory_perm (c : jsstring) (l1 l2 : list Recommendation.t) :
  Permutation l1 l2 -> hasCategory c l1 = hasCategory c l2.
Proof.
  intros H. apply existsb_same_members. intros x. split; apply Permutation_in;
    [assumption | now symmetry].
Qed.

Lemma hasTitle_perm (t : jsstring) (l1 l2 : list Recommendation.t) :
  Permutation l1 l2 -> hasTitle t l1 = hasTitle t l2.
Proof.
  intros H. apply existsb_same_members. intros x. split; apply Permutation_in;
    [assumption | now symmetry].
Qed.

Lemma hasTitle_pushWhen (t : jsstring) (c : bool) (r : Recommendation.t)
    (l : list Recommendation.t) :
  hasTitle t (pushWhen c r l)
  = hasTitle t l || (c && string_eqb (Recommendation.title r) t).
Proof.
  unfold pushWhen, hasTitle. destruct c; cbn [andb].
  - rewrite existsb_app. cbn [existsb]. now rewrite orb_false_r.
  - now rewrite orb_false_r.
Qed.

(** X3: whatever the result it is given, [generateRecommendations] gives at
    most 6 recommendations, at most one of each category, and the categories
    are among Keywords, Experience, Impact, Length, Contact and Education:
    the rules for Skills and Format never fire, because the objects under
    [skillsAnalysis] and [formatAnalysis] have no [analysis] property. *)
Theorem generateRecommendations_categories
    (scoreResults : ScoreResult.t) (resumeText jobDescription : jsstring) :
  let categories :=
    map Recommendation.category
      (generateRecommendations scoreResults resumeText jobDescription) in
  NoDup categories
  /\ (length categories <= 6)%nat
  /\ incl categories
       (map str ["Keywords"; "Experience"; "Impact"; "Length"; "Contact"; "Education"]%string)
  /\ hasCategory (str "Skills")
       (generateRecommendations scoreResults resumeText jobDescription) = false
  /\ hasCategory (str "Format")
       (generateRecommendations scoreResults resumeText jobDescription) = false.
Proof.
  intros categories. subst categories. unfold generateRecommendations.
  set (sorted := stableSort _ (pushedRecommendations scoreResults)).
  assert (Permutation
            (map Recommendation.category sorted)
            (map Recommendation.category (pushedRecommendations scoreResults))) as Hp
    by (apply Permutation_map, stableSort_perm).
  rewrite !(hasCategory_perm _ (stableSort_perm _ (pushedRecommendations scoreResults))
             : hasCategory _ sorted = _).
  assert (NoDup (map Recommendation.category (pushedRecommendations scoreResults))
          /\ (length (map Recommendation.category (pushedRecommendations scoreResults)) <= 6)%nat
          /\ incl (map Recommendation.category (pushedRecommendations scoreResults))
               (map str ["Keywords"; "Experience"; "Impact"; "Length"; "Contact"; "Education"]%string)
          /\ hasCategory (str "Skills") (pushedRecommendations scoreResults) = false
          /\ hasCategory (str "Format") (pushedRecommendations scoreResults) = false) as H.
  { unfold pushedRecommendations, analysisOfSkillsAnalysis, analysisOfFormatAnalysis, pushWhen.
    destruct (Part.score (Breakdown.keywordMatch (ScoreResult.breakdown scoreResults)) <? 70)%Z,
             (Part.score (Breakdown.skillsAlignment (ScoreResult.breakdown scoreResults)) <? 70)%Z,
             (Metrics.actionVerbsCount (ScoreResult.metrics scoreResults) <? 5)%Z,
             (Metrics.quantifiableAchievements (ScoreResult.metrics scoreResults) <? 3)%Z,
             (Part.score (Breakdown.formatReadability (ScoreResult.breakdown scoreResults)) <? 70)%Z,
             (ResumeLength.optimal (Metrics.resumeLength (ScoreResult.metrics scoreResults))),
             (ResumeLength.words (Metrics.resumeLength (ScoreResult.metrics scoreResults)) <? 300)%Z,
             (0 <? len (missingContact (Metrics.contactInfo (ScoreResult.metrics scoreResults))))%Z,
             (Part.score (Breakdown.educationMatch (ScoreResult.breakdown scoreResults)) <? 70)%Z;
      cbn [negb app map Recommendation.category keywordRecommendation verbsRecommendation
           impactRecommendation expandRecommendation condenseRecommendation
           contactRecommendation educationRecommendation hasCategory existsb length];
      (split; [repeat constructor; cbn [In]; intuition discriminate|]);
      (split; [lia|]);
      (split; [intros c Hc; cbn [In] in Hc; cbn [map In];
                 repeat (destruct Hc as [<-|Hc]; [tauto|]); destruct Hc|]);
      split; reflexivity. }
  destruct H as [H1 [H2 [H3 [H4 H5]]]].
  split; [|split; [|split; [|split]]]; try assumption.
  - apply (Permutation_NoDup (l := map Recommendation.category (pushedRecommendations scoreResults)));
      [now symmetry | assumption].
  - now rewrite (Permutation_length Hp).
  - intros c Hc. apply H3. now apply (Permutation_in _ Hp).
Qed.

Lemma length_titles_pushed (r : ScoreResult.t) :
  hasTitle (str "Expand Your Resume") (pushedRecommendations r)
    = negb (ResumeLength.optimal (Metrics.resumeLength (ScoreResult.metrics r)))
      && (ResumeLength.words (Metrics.resumeLength (ScoreResult.metrics r)) <? 300)%Z
  /\ hasTitle (str "Consider Condensing") (pushedRecommendations r)
    = negb (ResumeLength.optimal (Metrics.resumeLength (ScoreResult.metrics r)))
      && negb (ResumeLength.words (Metrics.resumeLength (ScoreResult.metrics r)) <? 300)%Z.
Proof.
  unfold pushedRecommendations, analysisOfSkillsAnalysis, analysisOfFormatAnalysis, pushWhen.
  destruct (Part.score (Breakdown.keywordMatch (ScoreResult.breakdown r)) <? 70)%Z,
           (Part.score (Breakdown.skillsAlignment (ScoreResult.breakdown r)) <? 70)%Z,
           (Metrics.actionVerbsCount (ScoreResult.metrics r) <? 5)%Z,
           (Metrics.quantifiableAchievements (ScoreResult.metrics r) <? 3)%Z,
           (Part.score (Breakdown.formatReadability (ScoreResult.breakdown r)) <? 70)%Z,
           (ResumeLength.optimal (Metrics.resumeLength (ScoreResult.metrics r))),
           (ResumeLength.words (Metrics.resumeLength (ScoreResult.metrics r)) <? 300)%Z,
           (0 <? len (missingContact (Metrics.contactInfo (ScoreResult.metrics r))))%Z,
           (Part.score (Breakdown.educationMatch (ScoreResult.breakdown r)) <? 70)%Z;
    cbn [negb andb app hasTitle existsb Recommendation.title keywordRecommendation
         verbsRecommendation impactRecommendation expandRecommendation
         condenseRecommendation contactRecommendation educationRecommendation];
    split; reflexivity.
Qed.

Section RecommendationsOfScore.
Context {CM : CaseMap}.

(** X4: on a result of [calculateScore], "Expand Your Resume" is recommended
    exactly when the resume counts fewer than 300 words and "Consider
    Condensing" exactly when it counts more than 1000; never both. *)
Theorem length_recommendations
    (resumeText jobDescription : jsstring) (resumeKeywords jobKeywords : KeywordSet.t)
    (industry : jsstring) :
  let recommendations :=
    generateRecommendations
      (calculateScore resumeText jobDescription resumeKeywords jobKeywords industry)
      resumeText jobDescription in
  hasTitle (str "Expand Your Resume") recommendations = (wordCount resumeText <? 300)%Z
  /\ hasTitle (str "Consider Condensing") recommendations = (1000 <? wordCount resumeText)%Z.
Proof.
  intros recommendations. subst recommendations. unfold generateRecommendations.
  set (r := calculateScore resumeText jobDescription resumeKeywords jobKeywords industry).
  rewrite !(hasTitle_perm _ (stableSort_perm _ (pushedRecommendations r))).
  destruct (length_titles_pushed r) as [-> ->].
  change (ResumeLength.optimal (Metrics.resumeLength (ScoreResult.metrics r)))
    with ((300 <=? wordCount resumeText)%Z && (wordCount resumeText <=? 1000)%Z).
  change (ResumeLength.words (Metrics.resumeLength (ScoreResult.metrics r)))
    with (wordCount resumeText).
  destruct (Z.leb_spec 300 (wordCount resumeText)), (Z.leb_spec (wordCount resumeText) 1000),
    (Z.ltb_spec (wordCount resumeText) 300), (Z.ltb_spec 1000 (wordCount resumeText));
    try lia; split; reflexivity.
Qed.

End RecommendationsOfScore.

(** ** More on compareKeywords and calculateKeywordScore *)

Lemma filter_true_all {T} (f : T -> bool) (l : list T) :
  (forall x, In x l -> f x = true) -> filter f l = l.
Proof.
  induction l as [|x l IH]; intros H; [reflexivity|]. cbn [filter].
  rewrite (H x (or_introl eq_refl)). f_equal. apply IH. intros y Hy. apply H. now right.
Qed.

Lemma filter_false_none {T} (f : T -> bool) (l : list T) :
  (forall x, In x l -> f x = true) -> filter (fun x => negb (f x)) l = [].
Proof.
  induction l as [|x l IH]; intros H; [reflexivity|]. cbn [filter].
  rewrite (H x (or_introl eq_refl)). cbn [negb]. apply IH. intros y Hy. apply H. now right.
Qed.

Lemma filter_length_mono {T} (f g : T -> bool) (l : list T) :
  (forall x, f x = true -> g x = true) ->
  (length (filter f l) <= length (filter g l))%nat.
Proof.
  intros H. induction l as [|x l IH]; [reflexivity|]. cbn [filter].
  destruct (f x) eqn:E.
  - rewrite (H x E). cbn [length]. lia.
  - destruct (g x); cbn [length]; lia.
Qed.

Lemma keywordFound_mono {CM : CaseMap} (rs rs' : list jsstring) (k : jsstring) :
  incl rs rs' -> keywordFound rs k = true -> keywordFound rs' k = true.
Proof.
  intros Hincl. unfold keywordFound.
  destruct (mem (toLowerCase k) rs) eqn:E.
  - intros _. apply mem_In in E. apply Hincl, mem_In in E. now rewrite E.
  - intros H. destruct (mem (toLowerCase k) rs'); [reflexivity|].
    apply existsb_exists in H as [x [Hx Hf]]. apply existsb_exists.
    exists x. split; [now apply Hincl | assumption].
Qed.

Lemma newSet_incl (l l' : list jsstring) : incl l l' -> incl (newSet l) (newSet l').
Proof. intros H x Hx. apply newSet_In. apply H. now apply newSet_In. Qed.

Lemma ratio_mono (m m' n : Z) :
  (m <= m')%Z -> (0 <= n)%Z ->
  (inject_Z m / inject_Z n * 100 <= inject_Z m' / inject_Z n * 100)%Q.
Proof.
  intros Hm Hn. apply Qmult_le_compat_r; [|discriminate].
  unfold Qdiv. apply Qmult_le_compat_r; [now rewrite <- Zle_Qle|].
  apply Qinv_le_0_compat. change 0%Q with (inject_Z 0). now rewrite <- Zle_Qle.
Qed.

Section ComparatorMore.
Context {CM : CaseMap}.

(** X5: when every job keyword, lower-cased, is among the lower-cased resume
    keywords, nothing is missing, [matched] is the list of job keywords as
    given, and the match rate is 100 unless that list is empty. *)
Theorem compareKeywords_all_present (resumeKeywords jobKeywords : list jsstring) :
  incl (map toLowerCase jobKeywords) (map toLowerCase resumeKeywords) ->
  Comparison.matched (compareKeywords resumeKeywords jobKeywords) = jobKeywords
  /\ Comparison.missing (compareKeywords resumeKeywords jobKeywords) = []
  /\ (Comparison.matchRate (compareKeywords resumeKeywords jobKeywords)
      == if (0 <? len jobKeywords)%Z then 100 else 0)%Q.
Proof.
  intros Hincl.
  assert (forall k, In k jobKeywords ->
            keywordFound (newSet (map toLowerCase resumeKeywords)) k = true) as Hall.
  { intros k Hk. unfold keywordFound.
    assert (In (toLowerCase k) (newSet (map toLowerCase resumeKeywords))) as H.
    { apply newSet_In, Hincl. now apply in_map. }
    apply mem_In in H. now rewrite H. }
  assert (Comparison.matched (compareKeywords resumeKeywords jobKeywords) = jobKeywords) as Hm.
  { rewrite compareKeywords_matched. now apply filter_true_all. }
  split; [assumption|]. split.
  - rewrite compareKeywords_missing. now apply filter_false_none.
  - rewrite matchRate_unfold, Hm.
    destruct (Z.ltb_spec 0 (len jobKeywords)) as [Hpos|_]; [|reflexivity].
    field. intros H. change 0%Q with (inject_Z 0) in H.
    apply (proj1 (inject_Z_injective _ _)) in H. lia.
Qed.

(** X6: enlarging the set of lower-cased resume keywords never loses a match:
    every job keyword that was matched stays matched, and neither the count
    nor the rate goes down. *)
Theorem compareKeywords_monotone (resumeKeywords resumeKeywords' jobKeywords : list jsstring) :
  incl (map toLowerCase resumeKeywords) (map toLowerCase resumeKeywords') ->
  incl (Comparison.matched (compareKeywords resumeKeywords jobKeywords))
       (Comparison.matched (compareKeywords resumeKeywords' jobKeywords))
  /\ (Comparison.matchedCount (compareKeywords resumeKeywords jobKeywords)
      <= Comparison.matchedCount (compareKeywords resumeKeywords' jobKeywords))%Z
  /\ (Comparison.matchRate (compareKeywords resumeKeywords jobKeywords)
      <= Comparison.matchRate (compareKeywords resumeKeywords' jobKeywords))%Q.
Proof.
  intros Hincl. apply newSet_incl in Hincl.
  assert (len (Comparison.matched (compareKeywords resumeKeywords jobKeywords))
          <= len (Comparison.matched (compareKeywords resumeKeywords' jobKeywords)))%Z as Hlen.
  { rewrite !compareKeywords_matched. unfold len. apply inj_le.
    apply filter_length_mono. intros k. now apply keywordFound_mono. }
  split; [|split].
  - rewrite !compareKeywords_matched. intros k Hk.
    apply filter_In in Hk as [Hk Hf]. apply filter_In. split; [assumption|].
    eapply keywordFound_mono; eassumption.
  - destruct (compareKeywords_counts resumeKeywords jobKeywords) as [-> _].
    destruct (compareKeywords_counts resumeKeywords' jobKeywords) as [-> _].
    assumption.
  - rewrite !matchRate_unfold. destruct (0 <? len jobKeywords)%Z; [|apply Qle_refl].
    apply ratio_mono; [assumption | apply len_nonneg].
Qed.

(** X7: of the resume keywords, only the set of their lower-cased forms
    matters: order, repetitions and case change nothing in the result. *)
Theorem compareKeywords_resume_as_set (resumeKeywords resumeKeywords' jobKeywords : list jsstring) :
  (forall k, In k (map toLowerCase resumeKeywords) <-> In k (map toLowerCase resumeKeywords')) ->
  compareKeywords resumeKeywords jobKeywords = compareKeywords resumeKeywords' jobKeywords.
Proof.
  intros H.
  assert (forall k, keywordFound (newSet (map toLowerCase resumeKeywords)) k
                    = keywordFound (newSet (map toLowerCase resumeKeywords')) k) as Hf.
  { intros k. apply Bool.eq_iff_eq_true. split; apply keywordFound_mono;
      apply newSet_incl; intros x Hx; now apply H. }
  unfold compareKeywords. rewrite !classify_fold. cbn [app].
  rewrite (filter_ext _ _ Hf).
  rewrite (filter_ext (fun k => negb (keywordFound (newSet (map toLowerCase resumeKeywords)) k))
             (fun k => negb (keywordFound (newSet (map toLowerCase resumeKeywords')) k)))
    by (intros k; now rewrite Hf).
  reflexivity.
Qed.

(** X8: the keyword score is the match rate or, with the bonus, at most 10
    above it and at most 100; the two counts add up to the number of job
    keywords; each of the two reported lists holds at most 20 keywords; the
    reported rate is within 0.05 of the rate. *)
Theorem calculateKeywordScore_report (resumeKeywords jobKeywords : KeywordSet.t) :
  let rate :=
    Comparison.matchRate
      (compareKeywords (KeywordSet.keywords resumeKeywords) (KeywordSet.keywords jobKeywords)) in
  let s := calculateKeywordScore resumeKeywords jobKeywords in
  (rate <= KeywordScore.score s <= rate + 10)%Q
  /\ (KeywordScore.score s <= 100)%Q
  /\ (KeywordScore.matched s + KeywordScore.missing s
      = len (KeywordSet.keywords jobKeywords))%Z
  /\ (length (KeywordScore.matchedKeywords s) <= 20)%nat
  /\ (length (KeywordScore.missingKeywords s) <= 20)%nat
  /\ (rate - 0.05 <= KeywordScore.matchRate s <= rate + 0.05)%Q.
Proof.
  intros rate s.
  pose proof (matchRate_bounds (KeywordSet.keywords resumeKeywords)
                (KeywordSet.keywords jobKeywords)) as Hb.
  fold rate in Hb.
  split; [|split; [|split; [|split; [|split]]]].
  - subst s. unfold calculateKeywordScore. cbn [KeywordScore.score]. fold rate.
    destruct (gt _ 70); [|lra].
    destruct (min_spec 100 (rate + 10)) as [[-> ?]|[-> ?]]; lra.
  - apply keywordScore_bounds.
  - subst s. unfold calculateKeywordScore. cbn [KeywordScore.matched KeywordScore.missing].
    destruct (compareKeywords_counts (KeywordSet.keywords resumeKeywords)
                (KeywordSet.keywords jobKeywords)) as [-> [-> _]].
    rewrite compareKeywords_matched, compareKeywords_missing.
    apply filter_split_length.
  - apply firstn_le_length.
  - apply firstn_le_length.
  - subst s. unfold calculateKeywordScore. cbn [KeywordScore.matchRate]. fold rate.
    pose proof (round_dist (rate * 10)) as Hr.
    set (n := inject_Z (round (rate * 10))) in *.
    assert (n / 10 == n * (1 # 10))%Q as -> by (field).
    lra.
Qed.

End ComparatorMore.

Lemma compareKeywords_all_present_witness :
  Comparison.missing
    (compareKeywords (CM := asciiCaseMap) [str "SQL"; str "Python"] [str "python"; str "sql"])
  = [].
Proof.
  apply (compareKeywords_all_present (CM := asciiCaseMap)
           [str "SQL"; str "Python"] [str "python"; str "sql"]).
  intros k Hk. cbn in Hk. cbn. tauto.
Defined.

Lemma compareKeywords_monotone_witness :
  (Comparison.matchedCount
     (compareKeywords (CM := asciiCaseMap) [str "sql"] [str "python"; str "sql"])
   <= Comparison.matchedCount
        (compareKeywords (CM := asciiCaseMap) [str "sql"; str "Python"]
           [str "python"; str "sql"]))%Z.
Proof.
  apply (compareKeywords_monotone (CM := asciiCaseMap)
           [str "sql"] [str "sql"; str "Python"] [str "python"; str "sql"]).
  intros k Hk. cbn in Hk. cbn. tauto.
Defined.

Lemma compareKeywords_resume_as_set_witness :
  compareKeywords (CM := asciiCaseMap) [str "SQL"; str "sql"; str "Python"] [str "python"; str "go"]
  = compareKeywords (CM := asciiCaseMap) [str "python"; str "Sql"] [str "python"; str "go"].
Proof.
  apply (compareKeywords_resume_as_set (CM := asciiCaseMap)
           [str "SQL"; str "sql"; str "Python"] [str "python"; str "Sql"]
           [str "python"; str "go"]).
  intros k. cbn. tauto.
Defined.

(** ** What the extractors return *)

Lemma StronglySorted_weaken {T} (R1 R2 : T -> T -> Prop) (l : list T) :
  (forall a b, R1 a b -> R2 a b) -> StronglySorted R1 l -> StronglySorted R2 l.
Proof.
  intros H. induction 1 as [|x l Hl IH Hx]; constructor; [assumption|].
  eapply Forall_impl; [|exact Hx]. intros y. apply H.
Qed.

Lemma nodupb_NoDup (l : list jsstring) : nodupb l = true -> NoDup l.
Proof.
  induction l as [|x l IH]; cbn [nodupb]; intros H; [constructor|].
  apply andb_prop in H as [Hx Hl]. constructor; [|now apply IH].
  intros Hin. apply mem_In in Hin. rewrite Hin in Hx. discriminate.
Qed.

Lemma NoDup_filter {T} (f : T -> bool) (l : list T) : NoDup l -> NoDup (filter f l).
Proof.
  induction 1 as [|x l Hx Hl IH]; cbn [filter]; [constructor|].
  destruct (f x); [|assumption]. constructor; [|assumption].
  intros H. apply filter_In in H. tauto.
Qed.

Lemma flat_map_optional_map {T U V} (p : T -> bool) (g : T -> U) (h : U -> V) (l : list T) :
  map h (flat_map (fun x => if p x then [g x] else []) l)
  = map (fun x => h (g x)) (filter p l).
Proof.
  induction l as [|x l IH]; [reflexivity|]. cbn [flat_map filter].
  destruct (p x); cbn [app map]; now rewrite IH.
Qed.

Lemma map_filter_comm {T U} (f : T -> U) (p : U -> bool) (l : list T) :
  filter p (map f l) = map f (filter (fun x => p (f x)) l).
Proof.
  induction l as [|x l IH]; [reflexivity|]. cbn [map filter].
  destruct (p (f x)); cbn [map]; now rewrite IH.
Qed.

Lemma skillsOfCategory_spec (processedText : jsstring) (c : category) (names : list string)
    (r : SkillRecord) :
  In r (skillsOfCategory processedText c names) ->
  skillCategory r = c
  /\ exists name, In name names /\ skill r = str name
       /\ skillCount r = countMatches (wholeWord name) processedText
       /\ (1 <= skillCount r)%Z.
Proof.
  unfold skillsOfCategory. intros H. apply in_flat_map in H as [name [Hn Hr]].
  destruct (Z.ltb_spec 0 (countMatches (wholeWord name) processedText)) as [Hpos|_];
    [|destruct Hr].
  destruct Hr as [<-|[]]. cbn [skill skillCategory skillCount]. split; [reflexivity|].
  exists name. repeat split; [assumption | lia].
Qed.

Lemma skillsOfCategory_length (processedText : jsstring) (c : category) (names : list string) :
  (length (skillsOfCategory processedText c names) <= length names)%nat.
Proof.
  unfold skillsOfCategory. induction names as [|n names IH]; [reflexivity|].
  cbn [flat_map]. rewrite length_app. cbn [length].
  destruct (0 <? _)%Z; cbn [length]; lia.
Qed.

Lemma flat_map_length_le {T U} (f : T -> list U) (size : T -> nat) (l : list T) :
  (forall x, In x l -> length (f x) <= size x)%nat ->
  (length (flat_map f l) <= list_sum (map size l))%nat.
Proof.
  induction l as [|x l IH]; intros H; [reflexivity|].
  change (list_sum (map size (x :: l))) with (size x + list_sum (map size l))%nat.
  cbn [flat_map]. rewrite length_app.
  pose proof (H x (or_introl eq_refl)).
  assert (length (flat_map f l) <= list_sum (map size l))%nat
    by (apply IH; intros y Hy; apply H; now right).
  lia.
Qed.

(** X9: every record that [extractSkills] returns names a skill of the
    dictionary under the category it is listed in, with the number of its
    whole-word matches in the text (padded with a space on both sides), which
    is at least 1; the records come by non-increasing count, and there are at
    most 103 of them, the size of the dictionary. *)
Theorem extractSkills_records (text : jsstring) :
  Forall (fun r =>
      exists names name,
        In (skillCategory r, names) TECHNICAL_SKILLS /\ In name names
        /\ skill r = str name
        /\ skillCount r = countMatches (wholeWord name) ([space] ++ text ++ [space])
        /\ (1 <= skillCount r)%Z)
    (extractSkills text)
  /\ StronglySorted (fun a b => (skillCount b <= skillCount a)%Z) (extractSkills text)
  /\ (length (extractSkills text) <= 103)%nat.
Proof.
  unfold extractSkills.
  set (found := flat_map _ TECHNICAL_SKILLS).
  pose proof (stableSort_perm (fun a b => (skillCount a <? skillCount b)%Z) found) as Hp.
  split; [|split].
  - apply Forall_forall. intros r Hr. apply (Permutation_in _ Hp) in Hr.
    subst found. apply in_flat_map in Hr as [[c names] [Hc Hr]]. cbn [fst snd] in Hr.
    apply skillsOfCategory_spec in Hr as [Hcat [name [Hn [Hs [Hcount Hpos]]]]].
    exists names, name. rewrite Hcat. repeat split; assumption.
  - pose proof (@stableSort_sorted SkillRecord (fun r => (- skillCount r)%Z)
                  (fun a b => (skillCount a <? skillCount b)%Z)) as Hs.
    assert (forall a b, (skillCount a <? skillCount b)%Z
                        = (- skillCount b <? - skillCount a)%Z) as Hkey.
    { intros a b. apply Bool.eq_iff_eq_true. rewrite !Z.ltb_lt. lia. }
    specialize (Hs Hkey found).
    eapply StronglySorted_weaken; [|exact Hs]. intros a b H. cbv beta in H. lia.
  - rewrite (Permutation_length Hp). subst found.
    etransitivity.
    + apply (flat_map_length_le _ (fun cn => length (snd cn))).
      intros cn _. apply skillsOfCategory_length.
    + vm_compute. lia.
Qed.

(** X10: [extractActionVerbs] returns verbs of [ACTION_VERBS], each once, with
    the number of its whole-word matches, at least 1, by non-increasing
    count; at most 29 of them. *)
Theorem extractActionVerbs_records (text : jsstring) :
  Forall (fun r =>
      exists v, In v ACTION_VERBS /\ verb r = str v
                /\ verbCount r = countMatches (wholeWord v) text
                /\ (1 <= verbCount r)%Z)
    (extractActionVerbs text)
  /\ NoDup (map verb (extractActionVerbs text))
  /\ StronglySorted (fun a b => (verbCount b <= verbCount a)%Z) (extractActionVerbs text)
  /\ (length (extractActionVerbs text) <= 29)%nat.
Proof.
  unfold extractActionVerbs.
  set (found := flat_map _ ACTION_VERBS).
  pose proof (stableSort_perm (fun a b => (verbCount a <? verbCount b)%Z) found) as Hp.
  split; [|split; [|split]].
  - apply Forall_forall. intros r Hr. apply (Permutation_in _ Hp) in Hr.
    subst found. apply in_flat_map in Hr as [v [Hv Hr]].
    destruct (Z.ltb_spec 0 (countMatches (wholeWord v) text)) as [Hpos|_]; [|destruct Hr].
    destruct Hr as [<-|[]]. exists v. cbn [verb verbCount].
    repeat split; [assumption | lia].
  - apply (Permutation_NoDup (l := map verb found));
      [apply Permutation_map; now symmetry|].
    subst found.
    rewrite (flat_map_optional_map
               (fun v => (0 <? countMatches (wholeWord v) text)%Z)
               (fun v => {| verb := str v; verbCount := countMatches (wholeWord v) text |})
               verb).
    cbn [verb].
    rewrite <- (map_map str (fun s => s)), map_id.
    assert (NoDup (map str ACTION_VERBS)) as Hnd by (apply nodupb_NoDup; vm_compute; reflexivity).
    clear Hp. induction ACTION_VERBS as [|v l IH]; [constructor|].
    cbn [map] in Hnd. inversion Hnd as [|? ? Hv Hl]; subst. cbn [filter].
    destruct (0 <? _)%Z; [|now apply IH].
    cbn [map]. constructor; [|now apply IH].
    intros Hin. apply Hv. apply in_map_iff in Hin as [w [Hw Hin]].
    apply filter_In in Hin as [Hin _]. rewrite <- Hw. now apply in_map.
  - pose proof (@stableSort_sorted VerbRecord (fun r => (- verbCount r)%Z)
                  (fun a b => (verbCount a <? verbCount b)%Z)) as Hs.
    assert (forall a b, (verbCount a <? verbCount b)%Z
                        = (- verbCount b <? - verbCount a)%Z) as Hkey.
    { intros a b. apply Bool.eq_iff_eq_true. rewrite !Z.ltb_lt. lia. }
    specialize (Hs Hkey found).
    eapply StronglySorted_weaken; [|exact Hs]. intros a b H. cbv beta in H. lia.
  - rewrite (Permutation_length Hp). subst found.
    rewrite (flat_map_optional_length
               (fun v => (0 <? countMatches (wholeWord v) text)%Z)
               (fun v => {| verb := str v; verbCount := countMatches (wholeWord v) text |})).
    etransitivity; [apply filter_length_le|]. vm_compute. lia.
Qed.

(** ** extractYearsOfExperience *)

Lemma fold_max_spec (l : list Z) (m : Z) :
  (m <= fold_left Z.max l m)%Z
  /\ Forall (fun y => (y <= fold_left Z.max l m)%Z) l
  /\ (fold_left Z.max l m = m \/ In (fold_left Z.max l m) l).
Proof.
  revert m. induction l as [|y l IH]; intros m; cbn [fold_left].
  - repeat split; [lia | constructor | now left].
  - destruct (IH (Z.max m y)) as [H1 [H2 H3]]. repeat split.
    + lia.
    + constructor; [lia | assumption].
    + destruct H3 as [H3|H3]; [|right; now right].
      rewrite H3. destruct (Z.max_spec m y) as [[? E]|[? E]]; rewrite E.
      * right. now left.
      * now left.
Qed.

(** X11: [extractYearsOfExperience] gives the largest number captured by a
    match of one of its three patterns when that number is above 0, and
    nothing when no captured number is above 0. *)
Theorem extractYearsOfExperience_max (text : jsstring) :
  match extractYearsOfExperience text with
  | Some years =>
      (0 < years)%Z /\ In years (yearCandidates text)
      /\ Forall (fun y => (y <= years)%Z) (yearCandidates text)
  | None => Forall (fun y => (y <= 0)%Z) (yearCandidates text)
  end.
Proof.
  unfold extractYearsOfExperience. rewrite fold_max_flat_map.
  change (flat_map _ [yearsPattern1; yearsPattern2; yearsPattern3])
    with (yearCandidates text).
  destruct (fold_max_spec (yearCandidates text) 0) as [H1 [H2 H3]].
  destruct (Z.ltb_spec 0 (fold_left Z.max (yearCandidates text) 0%Z)) as [Hpos|Hle].
  - repeat split; [assumption | | assumption].
    destruct H3 as [H3|H3]; [lia | assumption].
  - eapply Forall_impl; [|exact H2]. intros y Hy. cbv beta in Hy. lia.
Qed.

(** ** detectEducation and calculateEducationScore *)

Section EducationMore.
Context {CM : CaseMap}.

(** X12: in what [detectEducation] returns, [degrees] lists each degree whose
    pattern occurs in the text, from the highest rank down and without
    repetition, and [highestDegree] is its first element (none when the list
    is empty); the fields of study are taken from the fixed list, in its
    order, and each occurs in the lower-cased text. *)
Theorem detectEducation_invariants (text : jsstring) :
  let e := detectEducation text in
  Education.degrees e
    = filter (fun d => test (degreePattern d) text) [phd; masters; bachelors; associates]
  /\ Education.highestDegree e = hd_error (Education.degrees e)
  /\ StronglySorted (fun a b => (degreeRank b < degreeRank a)%Z) (Education.degrees e)
  /\ Forall (fun d => (degreeRank d <= rankOrZero (Education.highestDegree e))%Z)
       (Education.degrees e)
  /\ Forall (fun f => In f (map str fields) /\ includes (toLowerCase text) f = true)
       (Education.fieldOfStudy e).
Proof.
  intros e. subst e. unfold detectEducation, when, pushDegree.
  cbn [Education.degrees Education.highestDegree Education.fieldOfStudy filter degreePattern].
  split; [|split; [|split; [|split]]].
  - destruct (test phdPattern text), (test mastersPattern text),
      (test bachelorsPattern text), (test associatesPattern text); reflexivity.
  - destruct (test phdPattern text), (test mastersPattern text),
      (test bachelorsPattern text), (test associatesPattern text); reflexivity.
  - destruct (test phdPattern text), (test mastersPattern text),
      (test bachelorsPattern text), (test associatesPattern text);
      cbn; repeat constructor.
  - destruct (test phdPattern text), (test mastersPattern text),
      (test bachelorsPattern text), (test associatesPattern text);
      cbn; repeat constructor; discriminate.
  - apply Forall_forall. intros f Hf. apply filter_In in Hf. exact Hf.
Qed.

(** X13: when [analysis.meetsRequirement] is true the education score is 100;
    when the resume shows no degree and the job asks for a bachelor's degree
    or more it is at most 50, but when the job asks for an associate's degree
    it is 75 or 85, the resume counting as one level below; when the job asks
    for none it is at least 70. *)
Theorem calculateEducationScore_requirement (resumeText jobDescription : jsstring) :
  let s := calculateEducationScore resumeText jobDescription in
  let required := Education.highestDegree (detectEducation jobDescription) in
  let shown := Education.highestDegree (detectEducation resumeText) in
  (EducationAnalysis.meetsRequirement (EducationScore.analysis s) = true ->
     (EducationScore.score s == 100)%Q)
  /\ (shown = None ->
      match required with
      | Some associates => (75 <= EducationScore.score s <= 85)%Q
      | Some _ => (EducationScore.score s <= 50)%Q
      | None => True
      end)
  /\ (required = None -> (70 <= EducationScore.score s)%Q).
Proof.
  intros s required shown. subst s required shown.
  unfold calculateEducationScore.
  cbn [EducationScore.score EducationScore.analysis EducationAnalysis.meetsRequirement].
  set (bonus := (_ && _)%bool). set (fieldMatch := existsb _ _).
  split; [|split].
  - destruct (Education.highestDegree (detectEducation resumeText)) as [r|],
             (Education.highestDegree (detectEducation jobDescription)) as [j|];
      try discriminate.
    intros Hmeets. cbn [rankOrZero]. rewrite Hmeets.
    destruct bonus; [|reflexivity]. destruct fieldMatch; reflexivity.
  - intros Hshown. rewrite Hshown.
    destruct (Education.highestDegree (detectEducation jobDescription)) as [j|];
      [|exact I].
    destruct j, bonus, fieldMatch; vm_compute; try split; discriminate.
  - intros Hreq. rewrite Hreq.
    destruct (Education.highestDegree (detectEducation resumeText)), bonus, fieldMatch;
      vm_compute; discriminate.
Qed.

End EducationMore.

Lemma calculateEducationScore_requirement_witness :
  (EducationScore.score
     (calculateEducationScore (CM := asciiCaseMap)
        (str "Bachelor's degree in Computer Science") (str "Bachelor's degree required"))
   == 100)%Q
  /\ (75 <= EducationScore.score
              (calculateEducationScore (CM := asciiCaseMap)
                 (str "High school diploma") (str "Associate's degree required"))
      <= 85)%Q.
Proof.
  split.
  - apply (proj1 (calculateEducationScore_requirement (CM := asciiCaseMap)
                    (str "Bachelor's degree in Computer Science")
                    (str "Bachelor's degree required"))).
    reflexivity.
  - apply (proj1 (proj2 (calculateEducationScore_requirement (CM := asciiCaseMap)
                           (str "High school diploma")
                           (str "Associate's degree required")))).
    reflexivity.
Defined.

(** ** More on the skills and experience scores *)

Section ScoresMore.
Context {CM : CaseMap}.
#[local] Open Scope Q_scope.

(** X14: a resume whose text is the job description gets the skills score
    100 when the text names a skill, and 75 when it names none. *)
Theorem calculateSkillsScore_same_text (text : jsstring) :
  SkillsScore.score (calculateSkillsScore text text)
  == match extractSkills (toLowerCase text) with [] => 75 | _ :: _ => 100 end.
Proof.
  rewrite skillsScore_eq.
  destruct (extractSkills (toLowerCase text)) as [|s l] eqn:E; [reflexivity|].
  assert (0 < len (s :: l))%Z as Hpos by (unfold len; cbn [length]; lia).
  destruct (Z.eqb_spec (len (s :: l)) 0) as [H0|_]; [lia|].
  destruct (Z.ltb_spec 0 (len (s :: l))) as [_|H0]; [|lia].
  cbv zeta.
  assert (skillsCoverage text text == 100) as Hc.
  { unfold skillsCoverage, matchedJobSkills. rewrite E.
    rewrite filter_true_all.
    - field. intros H. change 0 with (inject_Z 0) in H.
      apply (proj1 (inject_Z_injective _ _)) in H. lia.
    - intros x Hx. apply mem_In.
      apply (in_map (fun s0 => toLowerCase (skill s0))) in Hx. exact Hx. }
  destruct (_ && _)%bool; [|exact Hc].
  destruct (min_spec 100 (skillsCoverage text text + 10)) as [[-> ?]|[-> ?]]; lra.
Qed.

(** X15: when the job text states years, [analysis.meetsRequirement] is true
    exactly when the experience score is at least 80; when it states none,
    [meetsRequirement] is false whatever the score. *)
Theorem calculateExperienceScore_meets (resumeText jobDescription : jsstring) :
  let s := calculateExperienceScore resumeText jobDescription in
  match extractYearsOfExperience jobDescription with
  | Some _ =>
      ExperienceAnalysis.meetsRequirement (ExperienceScore.analysis s)
      = geq (ExperienceScore.score s) 80
  | None => ExperienceAnalysis.meetsRequirement (ExperienceScore.analysis s) = false
  end.
Proof.
  intros s. subst s. unfold calculateExperienceScore, compareYears.
  destruct (extractYearsOfExperience jobDescription) as [j|],
           (extractYearsOfExperience resumeText) as [r|];
    repeat match goal with
           | |- context [if ?b then _ else _] => destruct b
           end;
    reflexivity.
Qed.

End ScoresMore.

(** ** The messages of the format score *)

Lemma checkSection_messages (text : jsstring) (l : list (string * regex)) :
  forall n st,
    (length (fissues (snd (fold_left (checkSection text) l (n, st))))
     + length (fstrengths (snd (fold_left (checkSection text) l (n, st))))
     = length (fissues st) + length (fstrengths st) + length l)%nat.
Proof.
  induction l as [|x l IH]; intros n st; cbn [fold_left length snd]; [lia|].
  unfold checkSection at 2 4. destruct (test (snd x) text); rewrite IH;
    cbn [pushStrength pushIssue fissues fstrengths]; rewrite length_app; cbn [length]; lia.
Qed.

Lemma formatScore_range (text : jsstring) :
  (10 <= FormatScore.score (calculateFormatScore text) <= 100)%Q.
Proof.
  unfold calculateFormatScore. cbn [FormatScore.score]. unfold formatChecks.
  rewrite checkSpecialChars_score, checkNumbers_score, checkBullets_score,
    checkLength_score, checkSections_score. cbn [fscore].
  pose proof (sectionPoints_bounds text).
  assert (10 <= lengthPoints text <= 20)%Q
    by (unfold lengthPoints; destruct (_ && _); [lra|]; destruct (_ <? _)%Z; lra).
  assert (5 <= bulletPoints text <= 15)%Q
    by (unfold bulletPoints; destruct (_ <=? _)%Z; lra).
  assert (5 <= numberPoints text <= 15)%Q
    by (unfold numberPoints; destruct (_ <=? _)%Z; lra).
  assert (-10 <= specialPoints text <= 10)%Q
    by (unfold specialPoints; destruct (test _ _); lra).
  match goal with |- (_ <= JS.max 0 (JS.min 100 ?x) <= _)%Q => set (total := x) in * end.
  assert (10 <= total <= 100)%Q by (subst total; lra).
  destruct (max_spec 0 (JS.min 100 total)) as [[-> ?]|[-> ?]];
    destruct (min_spec 100 total) as [[E ?]|[E ?]]; rewrite ?E in *; lra.
Qed.

(** X16: [calculateFormatScore] writes exactly 8 messages, one for each of
    the four sections and one for each of the four other rules, shared
    between [issues] and [strengths]; and its score lies between 10 and
    100. *)
Theorem calculateFormatScore_messages (text : jsstring) :
  let a := FormatScore.analysis (calculateFormatScore text) in
  (length (FormatAnalysis.issues a) + length (FormatAnalysis.strengths a) = 8)%nat
  /\ (10 <= FormatScore.score (calculateFormatScore text) <= 100)%Q.
Proof.
  intros a. split.
  - subst a. unfold calculateFormatScore.
    cbn [FormatScore.analysis FormatAnalysis.issues FormatAnalysis.strengths].
    unfold formatChecks, checkSpecialChars, checkNumbers, checkBullets, checkLength,
      checkSections.
    pose proof (checkSection_messages text sectionPatterns 0
                  {| fscore := 0; fissues := []; fstrengths := [] |}) as H.
    destruct (fold_left (checkSection text) sectionPatterns _) as [n st].
    cbn [snd fissues fstrengths length] in H.
    change (length sectionPatterns) with 4%nat in H.
    repeat match goal with
           | |- context [if ?b then _ else _] => destruct b
           end;
      cbn [pushStrength pushIssue addScore fissues fstrengths];
      rewrite ?length_app; cbn [length]; lia.
  - apply formatScore_range.
Qed.

(** ** Readability, pages *)

Lemma gt_true (x y : Q) : gt x y = true <-> (y < x)%Q.
Proof.
  unfold gt. rewrite negb_true_iff. split.
  - intros H. destruct (Qlt_le_dec y x) as [|Hle]; [assumption|].
    apply Qle_bool_iff in Hle. congruence.
  - intros H. destruct (Qle_bool x y) eqn:E; [|reflexivity].
    apply Qle_bool_iff in E. lra.
Qed.

(** X17: the readability score is never below 80: the two penalties exclude
    each other, so the score is one of 80, 85, 90, 95 and 100. *)
Theorem calculateReadabilityScore_range (avgSentenceLength activeVoiceRatio : Q) :
  In (Qred (calculateReadabilityScore avgSentenceLength activeVoiceRatio))
     [80; 85; 90; 95; 100]%Q.
Proof.
  unfold calculateReadabilityScore.
  destruct (gt avgSentenceLength 25) eqn:E1;
    destruct (gt 10 avgSentenceLength) eqn:E2;
    destruct (gt avgSentenceLength 20) eqn:E3;
    try (apply gt_true in E1; apply gt_true in E2; lra);
    try (apply gt_true in E2; apply gt_true in E3; lra);
    destruct (gt activeVoiceRatio 50); vm_compute;
    repeat (try (left; reflexivity); right).
Qed.

Lemma ceil_div (w : Z) : ceil (inject_Z w / 500)%Q = ((w + 499) / 500)%Z.
Proof.
  unfold ceil, Qceiling, Qfloor. cbn [Qopp Qdiv Qmult Qinv inject_Z Qnum Qden].
  change (Z.pos (1 * 500)) with 500%Z. rewrite Z.mul_1_r.
  pose proof (Z.div_mod (- w) 500 ltac:(lia)) as H1.
  pose proof (Z.mod_pos_bound (- w) 500 ltac:(lia)) as H2.
  pose proof (Z.div_mod (w + 499) 500 ltac:(lia)) as H3.
  pose proof (Z.mod_pos_bound (w + 499) 500 ltac:(lia)) as H4.
  lia.
Qed.

(** X18: the page estimate is the word count divided by 500 and rounded up;
    a resume of optimal length is estimated at 1 or 2 pages. *)
Theorem estimatePages_formula (text : jsstring) :
  estimatePages text = ((wordCount text + 499) / 500)%Z
  /\ (isOptimalLength text = true -> estimatePages text = 1%Z \/ estimatePages text = 2%Z).
Proof.
  assert (estimatePages text = ((wordCount text + 499) / 500)%Z) as H
    by (unfold estimatePages; apply ceil_div).
  split; [assumption|]. rewrite H. unfold isOptimalLength.
  change (len (split whitespaceRun text)) with (wordCount text).
  intros Hopt. apply andb_prop in Hopt as [H1 H2].
  apply Z.leb_le in H1, H2.
  pose proof (Z.div_mod (wordCount text + 499) 500 ltac:(lia)) as H3.
  pose proof (Z.mod_pos_bound (wordCount text + 499) 500 ltac:(lia)) as H4.
  lia.
Qed.

Lemma estimatePages_formula_witness :
  estimatePages threeHundredWords = 1%Z \/ estimatePages threeHundredWords = 2%Z.
Proof. apply (proj2 (estimatePages_formula threeHundredWords)). vm_compute. reflexivity. Defined.

(** ** The word count *)

Lemma run_star_cls_greedy {T} (f : char -> bool) (k : cursor -> list jsstring -> option T)
    (caps : list jsstring) :
  (forall p, k p caps <> None) ->
  forall s prev,
    run (Star (Cls f)) (Cursor prev s) caps k = k (afterRun f prev s) caps.
Proof.
  intros Hk. induction s as [|c t IH]; intros prev.
  - reflexivity.
  - rewrite run_star_cls_step. cbn [afterRun]. destruct (f c); [|reflexivity].
    rewrite IH. destruct (k (afterRun f (Some c) t) caps) eqn:E; [reflexivity|].
    now apply Hk in E.
Qed.

Lemma matchAt_whitespaceRun (prev : option char) (s : jsstring) :
  matchAt whitespaceRun (Cursor prev s)
  = match s with
    | c :: t =>
        if isSpace c
        then Some ((length s - length (rest (afterRun isSpace (Some c) t)))%nat, [])
        else None
    | [] => None
    end.
Proof.
  destruct s as [|c t]; [reflexivity|].
  unfold matchAt, whitespaceRun, Plus, ws. rewrite run_Cat, run_Cls. cbn [rest].
  destruct (isSpace c); [|reflexivity].
  rewrite run_star_cls_greedy; [reflexivity | discriminate].
Qed.

Lemma runsOf_run (f : char -> bool) (w rest : jsstring) :
  forallb f w = true ->
  match rest with c :: _ => f c = false | [] => True end ->
  runsOf f true (w ++ rest) = runsOf f false rest.
Proof.
  intros Hw Hr. induction w as [|c w IH]; cbn [app].
  - destruct rest as [|x r]; [reflexivity|]. cbn [runsOf]. now rewrite Hr.
  - cbn [forallb] in Hw. apply andb_prop in Hw as [Hc Hw].
    cbn [runsOf]. rewrite Hc. now apply IH.
Qed.

Lemma splitFrom_whitespace (s : jsstring) :
  forall prev skip cur fresh,
    length (splitFrom whitespaceRun prev s skip cur fresh)
    = S (runsOf isSpace false (skipn skip s)).
Proof.
  induction s as [|c t IH]; intros prev skip cur fresh.
  - destruct skip; reflexivity.
  - destruct skip as [|n]; [|apply IH].
    cbn [splitFrom skipn]. rewrite matchAt_whitespaceRun. cbn [runsOf].
    destruct (isSpace c) eqn:Ec.
    + destruct (afterRun_suffix isSpace t (Some c)) as [w [Ht [Hw Hr]]].
      remember (rest (afterRun isSpace (Some c) t)) as r eqn:Er. clear Er.
      replace (length (c :: t) - length r)%nat with (S (length w))
        by (rewrite Ht; cbn [length]; rewrite length_app; lia).
      cbn [length]. rewrite IH. f_equal. cbn [Nat.add]. f_equal.
      rewrite Ht, skipn_app, skipn_all, Nat.sub_diag. cbn [skipn app].
      symmetry. now apply runsOf_run.
    + now rewrite IH.
Qed.

(** X19: the word count is the number of runs of whitespace plus 1, so a text
    that starts or ends with whitespace counts one word more at that end, and
    the empty text counts 1. *)
Theorem wordCount_whitespace_runs (text : jsstring) :
  wordCount text = (1 + Z.of_nat (whitespaceRuns text))%Z.
Proof.
  unfold wordCount, split, len, whitespaceRuns.
  destruct text as [|c t]; [reflexivity|].
  rewrite splitFrom_whitespace. cbn [skipn]. lia.
Qed.

Example wordCount_padded :
  wordCount (str "two words") = 2%Z /\ wordCount (str " two words ") = 4%Z.
Proof. vm_compute. split; reflexivity. Qed.

(** ** What extractKeywords returns *)

Lemma dedupInto_NoDup (l seen : list jsstring) : NoDup seen -> NoDup (dedupInto seen l).
Proof.
  revert seen; induction l as [|x l IH]; intros seen H; cbn [dedupInto]; [assumption|].
  destruct (mem x seen) eqn:E; apply IH; [assumption|].
  apply NoDup_app; [assumption | repeat constructor; intros [] |].
  intros y Hy [<-|[]]. apply mem_In in Hy. congruence.
Qed.

Lemma dedupInto_length (l seen : list jsstring) :
  (length (dedupInto seen l) <= length seen + length l)%nat.
Proof.
  revert seen; induction l as [|x l IH]; intros seen; cbn [dedupInto length]; [lia|].
  destruct (mem x seen).
  - specialize (IH seen). lia.
  - specialize (IH (seen ++ [x])). rewrite length_app in IH. cbn [length] in IH. lia.
Qed.

Lemma setAdd_NoDup (s : list jsstring) (x : jsstring) : NoDup s -> NoDup (setAdd s x).
Proof.
  intros H. unfold setAdd. destruct (mem x s) eqn:E; [assumption|].
  apply NoDup_app; [assumption | repeat constructor; intros [] |].
  intros y Hy [<-|[]]. apply mem_In in Hy. congruence.
Qed.

Lemma fold_setAdd_NoDup {T} (step : list jsstring -> T -> list jsstring) (l : list T) :
  (forall s x, NoDup s -> NoDup (step s x)) ->
  forall s, NoDup s -> NoDup (fold_left step l s).
Proof.
  intros Hstep. induction l as [|x l IH]; intros s Hs; cbn [fold_left]; [assumption|].
  apply IH. now apply Hstep.
Qed.

Lemma NoDup_firstn_list {T} (n : nat) (l : list T) : NoDup l -> NoDup (firstn n l).
Proof.
  revert n. induction l as [|x l IH]; intros n H; [now rewrite firstn_nil|].
  destruct n; cbn [firstn]; [constructor|].
  inversion H as [|? ? Hx Hl]; subst. constructor; [|now apply IH].
  intros Hin. apply Hx. rewrite <- (firstn_skipn n l). apply in_or_app. now left.
Qed.

Section KeywordsMore.
Context {CM : CaseMap} {nlp : NLP}.

(** X20: whenever [extractKeywords] returns, [keywords] holds no keyword
    twice and contains every skill name and every phrase of the set;
    [phrases] holds at most 30 phrases, none twice; [entities] holds at most
    20 entities; and [keywords] holds at most 80 keywords more than there are
    skills. *)
Theorem extractKeywords_invariants (text : jsstring) (k : KeywordSet.t) :
  extractKeywords text = Returns k ->
  NoDup (KeywordSet.keywords k)
  /\ incl (map skill (KeywordSet.skills k)) (KeywordSet.keywords k)
  /\ incl (KeywordSet.phrases k) (KeywordSet.keywords k)
  /\ NoDup (KeywordSet.phrases k)
  /\ (length (KeywordSet.phrases k) <= 30)%nat
  /\ (length (KeywordSet.entities k) <= 20)%nat
  /\ (length (KeywordSet.keywords k) <= 80 + length (KeywordSet.skills k))%nat.
Proof.
  unfold extractKeywords.
  destruct (_ || _).
  - intros H. injection H as <-. cbn.
    repeat split; try constructor; try (intros x []); lia.
  - unfold extractTFIDFKeywords, extractPhrases, extractEntities.
    destruct (listTerms text) as [terms|]; [|discriminate].
    destruct (nouns text) as [ns|]; [|discriminate].
    destruct (organizations text) as [orgs|]; [|discriminate].
    destruct (places text) as [ps|]; [|discriminate].
    cbn [bind].
    match goal with
    | |- context [newSet (?t ++ _ ++ ?p)] =>
        assert (length t <= 50)%nat as Ht by apply firstn_le_length;
        assert (length p <= 30)%nat as Hp by apply firstn_le_length;
        assert (NoDup p) as Hnd;
        [ apply NoDup_firstn_list;
          apply fold_setAdd_NoDup;
          [ intros s x Hs; destruct (_ && _); [now apply setAdd_NoDup | assumption] | ];
          apply fold_setAdd_NoDup; [|constructor];
          intros s x Hs; destruct (_ && _); [now apply setAdd_NoDup | assumption]
        | remember t as tfidf eqn:Etfidf; remember p as phrases eqn:Ephrases;
          clear Etfidf Ephrases ]
    end.
    match goal with
    | |- context [@slice0 Entity 20 ?x] =>
        assert (length (@slice0 Entity 20 x) <= 20)%nat as He by apply firstn_le_length;
        remember (@slice0 Entity 20 x) as entities eqn:Ee; clear Ee
    end.
    intros H. injection H as <-.
    cbn [KeywordSet.keywords KeywordSet.skills KeywordSet.phrases KeywordSet.entities].
    split; [|split; [|split; [|split; [|split; [|split]]]]]; try assumption.
    + apply dedupInto_NoDup. constructor.
    + intros x Hx. apply newSet_In. rewrite !in_app_iff. tauto.
    + intros x Hx. apply newSet_In. rewrite !in_app_iff. tauto.
    + unfold newSet.
      pose proof (dedupInto_length
                    (tfidf ++ map skill (extractSkills (toLowerCase text)) ++ phrases) []) as H.
      rewrite !length_app, length_map in H. cbn [length] in H.
      lia.
Qed.

(** X21: on a text that is not blank, [extractKeywords] throws exactly when
    one of the four calls into the packages throws. *)
Theorem extractKeywords_throws (text : jsstring) :
  (length text =? 0)%nat || (length (trim text) =? 0)%nat = false ->
  (extractKeywords text = Throws
   <-> listTerms text = Throws \/ nouns text = Throws
       \/ organizations text = Throws \/ places text = Throws).
Proof.
  intros Hblank. unfold extractKeywords. rewrite Hblank.
  unfold extractTFIDFKeywords, extractPhrases, extractEntities.
  destruct (listTerms text) as [terms|]; [|cbn [bind]; tauto].
  destruct (nouns text) as [ns|]; [|cbn [bind]; tauto].
  destruct (organizations text) as [orgs|]; [|cbn [bind]; tauto].
  destruct (places text) as [ps|]; [|cbn [bind]; tauto].
  cbn [bind]. split; [discriminate|]. intros [H|[H|[H|H]]]; discriminate.
Qed.

End KeywordsMore.

Lemma extractKeywords_invariants_witness : NoDup (KeywordSet.keywords sampleKeywordSet).
Proof.
  apply (@extractKeywords_invariants asciiCaseMap silentNLP
           (str "Python and SQL on a data team") sampleKeywordSet).
  vm_compute. reflexivity.
Defined.

Lemma extractKeywords_throws_witness :
  extractKeywords (CM := asciiCaseMap) (nlp := throwingNLP) (str "python") = Throws.
Proof.
  apply (proj2 (extractKeywords_throws (CM := asciiCaseMap) (nlp := throwingNLP)
                  (str "python") eq_refl)).
  left. reflexivity.
Defined.

(** ** More on the overall score *)

Section OverallMore.
Context {CM : CaseMap}.
#[local] Open Scope Q_scope.

(** X22: the five [weightedScore] entries of [breakdown], each rounded on its
    own, add up to [overallScore] or to a number at most 2 away from it. *)
Theorem weightedScores_sum
    (resumeText jobDescription : jsstring) (resumeKeywords jobKeywords : KeywordSet.t)
    (industry : jsstring) :
  let result := calculateScore resumeText jobDescription resumeKeywords jobKeywords industry in
  let b := ScoreResult.breakdown result in
  (Z.abs (Part.weightedScore (Breakdown.keywordMatch b)
          + Part.weightedScore (Breakdown.skillsAlignment b)
          + Part.weightedScore (Breakdown.experienceRelevance b)
          + Part.weightedScore (Breakdown.educationMatch b)
          + Part.weightedScore (Breakdown.formatReadability b)
          - ScoreResult.overallScore result) <= 2)%Z.
Proof.
  intros result b. subst result b. unfold calculateScore.
  cbn [ScoreResult.overallScore ScoreResult.breakdown Breakdown.keywordMatch
       Breakdown.skillsAlignment Breakdown.experienceRelevance Breakdown.educationMatch
       Breakdown.formatReadability part Part.weightedScore].
  set (k := KeywordScore.score _). set (s := SkillsScore.score _).
  set (e := ExperienceScore.score _). set (d := EducationScore.score _).
  set (f := FormatScore.score _).
  pose proof (round_floor (k * 0.40)) as [Hk1 Hk2].
  pose proof (round_floor (s * 0.20)) as [Hs1 Hs2].
  pose proof (round_floor (e * 0.15)) as [He1 He2].
  pose proof (round_floor (d * 0.10)) as [Hd1 Hd2].
  pose proof (round_floor (f * 0.15)) as [Hf1 Hf2].
  pose proof (round_floor (weighted k s e d f)) as [Hw1 Hw2].
  set (rk := round (k * 0.40)) in *. set (rs := round (s * 0.20)) in *.
  set (re := round (e * 0.15)) in *. set (rd := round (d * 0.10)) in *.
  set (rf := round (f * 0.15)) in *.
  set (ro := round (weighted k s e d f)) in *.
  unfold weighted in Hw1, Hw2.
  assert (inject_Z (rk + rs + re + rd + rf) < inject_Z (ro + 3)) as Ha.
  { rewrite !inject_Z_plus. change (inject_Z 3) with 3. lra. }
  assert (inject_Z ro < inject_Z (rk + rs + re + rd + rf + 3)) as Hb.
  { rewrite !inject_Z_plus. change (inject_Z 3) with 3. lra. }
  rewrite <- Zlt_Qlt in Ha, Hb. lia.
Qed.

(** X23: [overallScore] is never below 13: the experience score is at least
    50, the education score at least 40 and the format score at least 10. *)
Theorem overallScore_at_least_13
    (resumeText jobDescription : jsstring) (resumeKeywords jobKeywords : KeywordSet.t)
    (industry : jsstring) :
  (13 <= ScoreResult.overallScore
           (calculateScore resumeText jobDescription resumeKeywords jobKeywords industry))%Z.
Proof.
  unfold calculateScore. cbn [ScoreResult.overallScore].
  pose proof (keywordScore_bounds resumeKeywords jobKeywords).
  pose proof (skillsScore_bounds resumeText jobDescription).
  pose proof (experienceScore_bounds resumeText jobDescription).
  pose proof (educationScore_bounds resumeText jobDescription).
  pose proof (formatScore_range resumeText).
  match goal with |- (13 <= round ?x)%Z => pose proof (round_floor x) as [Hr1 Hr2];
    assert (13 <= x) by (unfold weighted; lra); set (r := round x) in * end.
  assert (inject_Z 12 < inject_Z r) as Hlt.
  { change (inject_Z 12) with 12. lra. }
  rewrite <- Zlt_Qlt in Hlt. lia.
Qed.

End OverallMore.

(** The bound is reached: nothing matches, the job asks for years and a
    degree that the resume does not show, and the resume is one special
    character. *)
Example overallScore_13 :
  ScoreResult.overallScore
    (calculateScore (CM := asciiCaseMap) [8482%N]
       (str "5 years of experience with Python and a Bachelor's degree")
       (keywordsOnly []) (keywordsOnly ["python"]%string) [])
  = 13%Z.
Proof. vm_compute. reflexivity. Qed.

(** ** The numbers of the format score *)

Lemma run_Alt {T} (r1 r2 : regex) (p : cursor) (caps : list jsstring)
    (k : cursor -> list jsstring -> option T) :
  run (Alt r1 r2) p caps k
  = match run r1 p caps k with Some a => Some a | None => run r2 p caps k end.
Proof. reflexivity. Qed.

Lemma matchAt_number (prev : option char) (s : jsstring) :
  matchAt numberPattern (Cursor prev s)
  = match s with
    | c :: t =>
        if isDigit c then
          match rest (afterRun isDigit (Some c) t) with
          | x :: r =>
              if oneOf [37; 36]%N x then Some ((length s - length r)%nat, [])
              else Some ((length s - length (x :: r))%nat, [])
          | [] => Some (length s, [])
          end
        else None
    | [] => None
    end.
Proof.
  destruct s as [|c t]; [reflexivity|].
  unfold matchAt, numberPattern, digits, Plus, Opt. rewrite !run_Cat, run_Cls. cbn [rest].
  destruct (isDigit c); [|reflexivity].
  rewrite run_star_cls_greedy.
  - rewrite run_Alt, run_Cls.
    destruct (rest (afterRun isDigit (Some c) t)) as [|x r] eqn:E; cbn [run rest].
    + rewrite ?E. cbn [length]. now rewrite Nat.sub_0_r.
    + destruct (oneOf [37; 36]%N x); cbn [rest]; rewrite ?E; reflexivity.
  - intros p. rewrite run_Alt. destruct (run (Cls _) p [] _); discriminate.
Qed.

Lemma scan_numbers (s : jsstring) :
  forall prev skip,
    length (scan numberPattern prev s skip) = runsOf isDigit false (skipn skip s).
Proof.
  induction s as [|c t IH]; intros prev skip.
  - destruct skip; reflexivity.
  - destruct skip as [|n]; [|apply IH].
    cbn [scan skipn]. rewrite matchAt_number. cbn [runsOf].
    destruct (isDigit c) eqn:Ec; [|now rewrite IH].
    destruct (afterRun_suffix isDigit t (Some c)) as [w [Ht [Hw Hr]]].
    remember (rest (afterRun isDigit (Some c) t)) as r eqn:Er. clear Er.
    replace (runsOf isDigit true t) with (runsOf isDigit false r)
      by (rewrite Ht; symmetry; now apply runsOf_run).
    destruct r as [|x r].
    + cbn [length]. rewrite IH.
      replace (S (length t) - 1)%nat with (length t) by lia.
      now rewrite skipn_all.
    + assert (skipn (length w) t = x :: r) as Hskip
        by (rewrite Ht, skipn_app, skipn_all, Nat.sub_diag; reflexivity).
      assert (length t = length w + S (length r))%nat as Hlen
        by (rewrite Ht, length_app; reflexivity).
      destruct (oneOf [37; 36]%N x).
      * cbn [length]. rewrite IH.
        replace (S (length t) - length r - 1)%nat with (1 + length w)%nat by lia.
        rewrite <- skipn_skipn, Hskip. cbn [skipn runsOf]. now rewrite Hr.
      * cbn [length]. rewrite IH.
        replace (S (length t) - S (length r) - 1)%nat with (length w) by lia.
        now rewrite Hskip.
Qed.

(** X24: the number count of the format score is the number of maximal runs
    of digits in the text: a '%' or '$' after a run belongs to its match, and
    any other character between two digits starts a new number. *)
Theorem numberCount_digit_runs (text : jsstring) :
  numberCount text = Z.of_nat (digitRuns text).
Proof.
  unfold numberCount, countMatches, matches, digitRuns.
  now rewrite scan_numbers.
Qed.

Example numberCount_sample :
  numberCount (str "30% of 1,000 in 2019-2021") = 5%Z.
Proof. vm_compute. reflexivity. Qed.

(** ** The analysis of the skills score *)

Lemma bump_sum (c : category) (m : list (category * Z)) :
  fold_right Z.add 0%Z (map snd (bump c m)) = (fold_right Z.add 0%Z (map snd m) + 1)%Z.
Proof.
  induction m as [|[c' n] m IH]; cbn [bump map snd fold_right]; [reflexivity|].
  destruct (category_eqb c c'); cbn [map snd fold_right]; [lia | rewrite IH; lia].
Qed.

Lemma category_eqb_eq (a b : category) : category_eqb a b = true <-> a = b.
Proof. destruct a, b; cbn; split; (reflexivity || discriminate). Qed.

Lemma bump_keys (c : category) (m : list (category * Z)) (x : category) :
  In x (map fst (bump c m)) <-> x = c \/ In x (map fst m).
Proof.
  induction m as [|[c' n] m IH]; cbn [bump map fst In]; [intuition congruence|].
  destruct (category_eqb c c') eqn:E; cbn [map fst In].
  - apply category_eqb_eq in E. subst. intuition congruence.
  - rewrite IH. tauto.
Qed.

Lemma bump_NoDup (c : category) (m : list (category * Z)) :
  NoDup (map fst m) -> NoDup (map fst (bump c m)).
Proof.
  induction m as [|[c' n] m IH]; cbn [bump map fst]; intros H.
  - repeat constructor. intros [].
  - inversion H as [|? ? Hc Hm]; subst.
    destruct (category_eqb c c') eqn:E; cbn [map fst]; [assumption|].
    constructor; [|now apply IH].
    rewrite bump_keys. intros [->|Hin]; [|contradiction].
    assert (category_eqb c c = true) by now apply category_eqb_eq. congruence.
Qed.

Lemma bump_positive (c : category) (m : list (category * Z)) :
  Forall (fun e => (1 <= snd e)%Z) m -> Forall (fun e => (1 <= snd e)%Z) (bump c m).
Proof.
  induction m as [|[c' n] m IH]; cbn [bump]; intros H.
  - repeat constructor. cbn. lia.
  - inversion H as [|? ? Hn Hm]; subst. cbn [snd] in Hn.
    destruct (category_eqb c c'); constructor; cbn [snd]; auto; lia.
Qed.

Lemma fold_bump (l : list SkillRecord) :
  forall m,
    NoDup (map fst m) -> Forall (fun e => (1 <= snd e)%Z) m ->
    let m' := fold_left (fun categories s => bump (skillCategory s) categories) l m in
    NoDup (map fst m') /\ Forall (fun e => (1 <= snd e)%Z) m'
    /\ fold_right Z.add 0%Z (map snd m') = (fold_right Z.add 0%Z (map snd m) + len l)%Z.
Proof.
  induction l as [|s l IH]; intros m Hnd Hpos; cbn [fold_left].
  - repeat split; try assumption. unfold len. cbn [length]. lia.
  - destruct (IH (bump (skillCategory s) m) (@bump_NoDup (skillCategory s) m Hnd)
                (@bump_positive (skillCategory s) m Hpos))
      as [H1 [H2 H3]].
    repeat split; try assumption. cbv zeta in H3. rewrite H3, bump_sum.
    unfold len. cbn [length]. lia.
Qed.

Section SkillsMore.
Context {CM : CaseMap}.

(** X25: in the analysis of the skills score, [categories] has each category
    once, with a count of at least 1, and the counts add up to
    [criticalMatched], the number of matched job skills, which never exceeds
    the number of job skills; [matched] is cut at 15 skills and [missing] at
    10. *)
Theorem calculateSkillsScore_analysis (resumeText jobDescription : jsstring) :
  let s := calculateSkillsScore resumeText jobDescription in
  let a := SkillsScore.analysis s in
  NoDup (map fst (SkillsAnalysis.categories a))
  /\ Forall (fun e => (1 <= snd e)%Z) (SkillsAnalysis.categories a)
  /\ fold_right Z.add 0%Z (map snd (SkillsAnalysis.categories a))
     = SkillsScore.criticalMatched s
  /\ (0 <= SkillsScore.criticalMatched s
        <= len (extractSkills (toLowerCase jobDescription)))%Z
  /\ (length (SkillsAnalysis.matched a) <= 15)%nat
  /\ (length (SkillsAnalysis.missing a) <= 10)%nat.
Proof.
  intros s a. subst s a. unfold calculateSkillsScore.
  destruct (len (extractSkills (toLowerCase jobDescription)) =? 0)%Z eqn:E.
  - cbn. repeat split; try constructor; try lia. apply len_nonneg.
  - rewrite sortSkill_fold. cbn [app].
    cbn [SkillsScore.analysis SkillsScore.criticalMatched SkillsAnalysis.categories
         SkillsAnalysis.matched SkillsAnalysis.missing].
    fold (matchedJobSkills resumeText jobDescription).
    destruct (@fold_bump (matchedJobSkills resumeText jobDescription) []
                (NoDup_nil _) (Forall_nil _)) as [H1 [H2 H3]].
    cbv zeta in H1, H2, H3.
    split; [exact H1|]. split; [exact H2|]. split; [rewrite H3; cbn; lia|].
    split; [apply matchedJobSkills_le|].
    split; apply firstn_le_length.
Qed.

End SkillsMore.

(** ** analyzeContentQuality *)

Section QualityMore.
Context {CM : CaseMap}.

(** X26: for a text in which no sentence is found, the empty text among them,
    [analyzeContentQuality] divides by nothing: the average sentence length
    and the active-voice ratio are 0 and the readability score is 85; the
    word count is at least 1 in every case. *)
Theorem analyzeContentQuality_no_sentence (text : jsstring) :
  (1 <= ContentQuality.wordCount (analyzeContentQuality text))%Z
  /\ (ContentQuality.sentenceCount (analyzeContentQuality text) = 0%Z ->
      ContentQuality.avgSentenceLength (analyzeContentQuality text) = 0%Z
      /\ ContentQuality.activeVoiceRatio (analyzeContentQuality text) = 0%Z
      /\ (ContentQuality.readabilityScore (analyzeContentQuality text) == 85)%Q).
Proof.
  unfold analyzeContentQuality.
  cbn [ContentQuality.wordCount ContentQuality.sentenceCount ContentQuality.avgSentenceLength
       ContentQuality.activeVoiceRatio ContentQuality.readabilityScore].
  split; [apply wordCount_positive|].
  intros H. rewrite H. cbn [Z.ltb Z.compare]. repeat split.
Qed.

End QualityMore.

Lemma analyzeContentQuality_no_sentence_witness :
  ContentQuality.avgSentenceLength (analyzeContentQuality (CM := asciiCaseMap) (str "..."))
  = 0%Z.
Proof.
  apply (proj2 (analyzeContentQuality_no_sentence (CM := asciiCaseMap) (str "..."))).
  reflexivity.
Defined.
